(** * WiFi manager of the LOOP device ([backend/boot/wifi.py])

    A shallow embedding of [WiFiManager]: the scan parser, the link
    probe, the rewrite of the [wpa_supplicant] configuration, the hotspot
    start/stop sequences and the connection state they maintain, followed
    by the properties of these operations.

    Python values are modelled as follows.
    - [str] is [string]; every character is a code point below 256.
    - [int] is [Z]; the [float] results of [/] and [*] are binary64 values
      [m * 2^e], rounded to nearest with ties to even.
    - an exception is a constructor of [exn]; a computation that may raise
      returns [result].
    - the instance attributes of [WiFiManager] form the record [wifi];
      methods are state transformers over it that also record every
      external call they make. *)

From Stdlib Require Import Bool Arith ZArith List Lia.
From Stdlib Require Import Ascii String.
From Stdlib Require Import Sorted Permutation.
Import ListNotations.

Local Open Scope string_scope.
Local Open Scope Z_scope.

(** ** Exceptions *)

Inductive exn : Type :=
| TimeoutExpired        (* subprocess.TimeoutExpired *)
| CalledProcessError    (* subprocess.CalledProcessError *)
| FileNotFoundError
| PermissionError
| OSError               (* any other OSError *)
| KeyError
| IndexError
| ValueError
| ZeroDivisionError
| OverflowError
| UnboundLocalError
| OtherException.       (* any other subclass of Exception *)

Inductive result (A : Type) : Type :=
| Ok (a : A)
| Raise (e : exn).

Arguments Ok {A} a.
Arguments Raise {A} e.

Definition rbind {A B : Type} (r : result A) (k : A -> result B) : result B :=
  match r with
  | Ok a => k a
  | Raise e => Raise e
  end.

Declare Scope result_scope.
Delimit Scope result_scope with result.
Notation "x <- r ;; k" := (rbind r (fun x => k))
  (at level 61, r at next level, right associativity) : result_scope.
Notation "' p <- r ;; k" := (rbind r (fun p => k))
  (at level 61, p pattern, r at next level, right associativity) : result_scope.

(** ** Python string primitives *)

Module Py.

(** [str.isspace] on code points below 256. *)
Definition is_space (c : ascii) : bool :=
  let n := nat_of_ascii c in
  (((9 <=? n) && (n <=? 13)) || ((28 <=? n) && (n <=? 32))
   || (n =? 133) || (n =? 160))%nat.

Fixpoint lstrip_by (p : ascii -> bool) (s : string) : string :=
  match s with
  | EmptyString => EmptyString
  | String c s' => if p c then lstrip_by p s' else s
  end.

(** Drops the longest suffix whose characters all satisfy [p]. *)
Fixpoint rstrip_by (p : ascii -> bool) (s : string) : string :=
  match s with
  | EmptyString => EmptyString
  | String c s' =>
      match rstrip_by p s' with
      | EmptyString => if p c then EmptyString else String c EmptyString
      | t => String c t
      end
  end.

Definition strip_by (p : ascii -> bool) (s : string) : string :=
  rstrip_by p (lstrip_by p s).

(** [s.strip()] *)
Definition strip (s : string) : string := strip_by is_space s.

Fixpoint mem_char (c : ascii) (chars : string) : bool :=
  match chars with
  | EmptyString => false
  | String d chars' => Ascii.eqb c d || mem_char c chars'
  end.

(** [s.strip(chars)] and [s.rstrip(chars)] *)
Definition strip_chars (chars s : string) : string :=
  strip_by (fun c => mem_char c chars) s.
Definition rstrip_chars (chars s : string) : string :=
  rstrip_by (fun c => mem_char c chars) s.

(** [s.startswith(p)] *)
Fixpoint startswith (p s : string) : bool :=
  match p, s with
  | EmptyString, _ => true
  | String a p', String b s' => Ascii.eqb a b && startswith p' s'
  | String _ _, EmptyString => false
  end.

(** [sub in s] *)
Fixpoint contains (sub s : string) : bool :=
  startswith sub s ||
  match s with
  | EmptyString => false
  | String _ s' => contains sub s'
  end.

Fixpoint rev_string (acc s : string) : string :=
  match s with
  | EmptyString => acc
  | String c s' => rev_string (String c acc) s'
  end.

(** [s.split(sep)] for a non-empty [sep]: [cur] holds the current piece
    in reverse, [skip] the characters of a matched separator still to be
    passed over. *)
Fixpoint split_aux (sep : string) (skip : nat) (cur s : string) : list string :=
  match s with
  | EmptyString => [rev_string "" cur]
  | String c s' =>
      match skip with
      | S k => split_aux sep k cur s'
      | O =>
          if startswith sep s
          then rev_string "" cur :: split_aux sep (Nat.pred (String.length sep)) "" s'
          else split_aux sep O (String c cur) s'
      end
  end.

Definition split (sep s : string) : list string := split_aux sep O "" s.

(** [s.split()]: runs of whitespace separate the words, none is empty. *)
Fixpoint split_ws_aux (cur s : string) : list string :=
  match s with
  | EmptyString =>
      match cur with EmptyString => [] | _ => [rev_string "" cur] end
  | String c s' =>
      if is_space c
      then match cur with
           | EmptyString => split_ws_aux "" s'
           | _ => rev_string "" cur :: split_ws_aux "" s'
           end
      else split_ws_aux (String c cur) s'
  end.

Definition split_ws (s : string) : list string := split_ws_aux "" s.

(** [s.lower()] on code points below 256: the ASCII letters and the
    capital letters of Latin-1 (0xC0-0xDE but 0xD7) move up by 32. *)
Definition lower_char (c : ascii) : ascii :=
  let n := nat_of_ascii c in
  if (((65 <=? n) && (n <=? 90))
      || ((192 <=? n) && (n <=? 222) && negb (n =? 215)))%nat
  then ascii_of_nat (n + 32) else c.

Fixpoint lower (s : string) : string :=
  match s with
  | EmptyString => EmptyString
  | String c s' => String (lower_char c) (lower s')
  end.

(** [l[i]] *)
Definition index {A : Type} (l : list A) (i : nat) : result A :=
  match nth_error l i with
  | Some a => Ok a
  | None => Raise IndexError
  end.

(** [a, b = l] *)
Definition unpack2 {A : Type} (l : list A) : result (A * A) :=
  match l with
  | [a; b] => Ok (a, b)
  | _ => Raise ValueError
  end.

(** [''.join(l)], what [writelines] puts in the file. *)
Definition join (l : list string) : string := String.concat "" l.

Definition dquote : string := String (ascii_of_nat 34) "".
Definition nl : string := String (ascii_of_nat 10) "".

End Py.

(** ** Python numbers *)

Module Num.

Definition digit_val (c : ascii) : option Z :=
  let n := nat_of_ascii c in
  if ((48 <=? n) && (n <=? 57))%nat then Some (Z.of_nat n - 48) else None.

(** The digits of an integer literal; single underscores may separate
    digits.  [after_digit] tells whether the previous character was one. *)
Fixpoint parse_digits (acc : Z) (after_digit : bool) (s : string) : option Z :=
  match s with
  | EmptyString => if after_digit then Some acc else None
  | String c s' =>
      match digit_val c with
      | Some d => parse_digits (10 * acc + d) true s'
      | None =>
          if Ascii.eqb c "_"%char && after_digit
          then parse_digits acc false s'
          else None
      end
  end.

(** [int(s)] for a string [s] *)
Definition int_of_string (s : string) : result Z :=
  let body (neg : bool) (t : string) :=
    match parse_digits 0 false t with
    | Some n => Ok (if neg then - n else n)
    | None => Raise ValueError
    end in
  match Py.strip s with
  | String "-" t => body true t
  | String "+" t => body false t
  | t => body false t
  end.

(** A binary64 value: [Finite m e] is [m * 2^e]. *)
Inductive float : Type :=
| Finite (m e : Z)
| Infinity (negative : bool)
| NaN.

(** The integer nearest to [n / d], ties to even ([0 < d]). *)
Definition round_half_even (n d : Z) : Z :=
  let q := n / d in
  match 2 * (n mod d) ?= d with
  | Lt => q
  | Gt => q + 1
  | Eq => if Z.even q then q else q + 1
  end.

(** [d * 2^e <= n], for an exponent of either sign. *)
Definition scaled_le (d e n : Z) : bool :=
  if 0 <=? e then d * 2 ^ e <=? n else d <=? n * 2 ^ (- e).

(** [floor (log2 (n / d))] for positive [n] and [d]. *)
Definition floor_log2_ratio (n d : Z) : Z :=
  let e0 := Z.log2 n - Z.log2 d in
  if scaled_le d e0 n then e0 else e0 - 1.

(** Exponent of the unit in the last place of [n / d]: 53 significant
    bits, but no finer than the subnormal spacing [2^-1074]. *)
Definition ulp_exp (n d : Z) : Z := Z.max (floor_log2_ratio n d - 52) (- 1074).

(** [n / d] (with [0 <= n], [0 < d]) rounded to binary64: the mantissa and
    exponent, before the range check. *)
Definition round_ratio (n d : Z) : Z * Z :=
  if n =? 0 then (0, 0)
  else
    let e := ulp_exp n d in
    let m := if 0 <=? e then round_half_even n (d * 2 ^ e)
             else round_half_even (n * 2 ^ (- e)) d in
    (m, e).

Definition too_large (m e : Z) : bool := (0 <=? e) && (2 ^ 1024 <=? m * 2 ^ e).

(** [a / b] on integers: the exact quotient correctly rounded. *)
Definition true_div (a b : Z) : result float :=
  if b =? 0 then Raise ZeroDivisionError
  else
    let '(m, e) := round_ratio (Z.abs a) (Z.abs b) in
    if too_large m e then Raise OverflowError
    else Ok (Finite (Z.sgn a * Z.sgn b * m) e).

(** [float(z)] *)
Definition float_of_int (z : Z) : result float := true_div z 1.

(** [x * y] on floats *)
Definition mul (x y : float) : float :=
  match x, y with
  | NaN, _ | _, NaN => NaN
  | Finite m1 e1, Finite m2 e2 =>
      let p := m1 * m2 in
      let e := e1 + e2 in
      let '(m, e') := if 0 <=? e then round_ratio (Z.abs p * 2 ^ e) 1
                      else round_ratio (Z.abs p) (2 ^ (- e)) in
      if too_large m e' then Infinity (p <? 0) else Finite (Z.sgn p * m) e'
  | Infinity s, Finite m _ | Finite m _, Infinity s =>
      if m =? 0 then NaN else Infinity (xorb s (m <? 0))
  | Infinity s1, Infinity s2 => Infinity (xorb s1 s2)
  end.

(** [int(x)] for a float [x]: truncation towards zero. *)
Definition int_of_float (x : float) : result Z :=
  match x with
  | Finite m e => Ok (if 0 <=? e then m * 2 ^ e else Z.quot m (2 ^ (- e)))
  | Infinity _ => Raise OverflowError
  | NaN => Raise ValueError
  end.

End Num.

(** ** Scan results ([scan_networks], the parsing part) *)

(** One dictionary of [networks]; a key that is not set is [None]. *)
Record network : Type := {
  net_bssid : option string;
  net_ssid : option string;
  net_quality : option Z;
  net_encrypted : option bool
}.

Definition empty_network : network :=
  {| net_bssid := None; net_ssid := None;
     net_quality := None; net_encrypted := None |}.

(** Truth value of the dictionary: it has a key. *)
Definition network_nonempty (n : network) : bool :=
  match net_bssid n, net_ssid n, net_quality n, net_encrypted n with
  | None, None, None, None => false
  | _, _, _, _ => true
  end.

Definition set_ssid (v : string) (n : network) : network :=
  {| net_bssid := net_bssid n; net_ssid := Some v;
     net_quality := net_quality n; net_encrypted := net_encrypted n |}.
Definition set_quality (v : Z) (n : network) : network :=
  {| net_bssid := net_bssid n; net_ssid := net_ssid n;
     net_quality := Some v; net_encrypted := net_encrypted n |}.
Definition set_encrypted (v : bool) (n : network) : network :=
  {| net_bssid := net_bssid n; net_ssid := net_ssid n;
     net_quality := net_quality n; net_encrypted := Some v |}.

Section Scan.
Local Open Scope result_scope.

(** [line.split('Quality=')[1].split(' ')[0]] *)
Definition quality_part (line : string) : result string :=
  rest <- Py.index (Py.split "Quality=" line) 1 ;;
  Py.index (Py.split " " rest) 0.

(** The operands [int(current)] and [int(max_val)] of the ratio, when the
    token holds a ['/']. *)
Definition quality_operands (line : string) : result (option (Z * Z)) :=
  part <- quality_part line ;;
  if Py.contains "/" part then
    '(current, max_val) <- Py.unpack2 (Py.split "/" part) ;;
    c <- Num.int_of_string current ;;
    m <- Num.int_of_string max_val ;;
    Ok (Some (c, m))
  else Ok None.

(** [int((c / m) * 100)] *)
Definition percentage (c m : Z) : result Z :=
  x <- Num.true_div c m ;;
  hundred <- Num.float_of_int 100 ;;
  Num.int_of_float (Num.mul x hundred).

(** The body of the [try] of the quality branch: the value to store under
    ['quality'], if any. *)
Definition quality_try (line : string) : result (option Z) :=
  ops <- quality_operands line ;;
  match ops with
  | Some (c, m) => q <- percentage c m ;; Ok (Some q)
  | None => Ok None
  end.

(** ... with its handler, [except (IndexError, ValueError)]. *)
Definition quality_field (line : string) : result (option Z) :=
  match quality_try line with
  | Raise IndexError | Raise ValueError => Ok None
  | r => r
  end.

Definition is_cell (line : string) : bool :=
  Py.contains "Cell" line && Py.contains "Address:" line.

(** One iteration of the loop over the lines of the output. *)
Definition scan_line (st : list network * network) (raw : string)
  : result (list network * network) :=
  let '(networks, current_network) := st in
  let line := Py.strip raw in
  if is_cell line then
    let networks := if network_nonempty current_network
                    then (networks ++ [current_network])%list else networks in
    addr <- Py.index (Py.split "Address: " line) 1 ;;
    Ok (networks, {| net_bssid := Some addr; net_ssid := None;
                     net_quality := None; net_encrypted := None |})
  else if Py.contains "ESSID:" line then
    rest <- Py.index (Py.split "ESSID:" line) 1 ;;
    let essid := Py.strip_chars Py.dquote rest in
    Ok (networks, match essid with
                  | EmptyString => current_network
                  | _ => set_ssid essid current_network
                  end)
  else if Py.contains "Quality=" line then
    q <- quality_field line ;;
    Ok (networks, match q with
                  | Some v => set_quality v current_network
                  | None => current_network
                  end)
  else if Py.contains "Encryption key:" line then
    Ok (networks, set_encrypted (Py.contains "on" (Py.lower line)) current_network)
  else Ok st.

Fixpoint scan_lines (st : list network * network) (lines : list string)
  : result (list network * network) :=
  match lines with
  | [] => Ok st
  | l :: lines' => st' <- scan_line st l ;; scan_lines st' lines'
  end.

(** [x.get('quality', 0)] *)
Definition sort_key (n : network) : Z :=
  match net_quality n with Some q => q | None => 0 end.

(** [list.sort(key=sort_key, reverse=True)]: a stable sort, larger keys
    first.  [insert_desc] puts [x] in front of the first element whose key
    is not larger than the key of [x]. *)
Fixpoint insert_desc (x : network) (l : list network) : list network :=
  match l with
  | [] => [x]
  | y :: l' => if sort_key y <=? sort_key x then x :: l
               else y :: insert_desc x l'
  end.

Fixpoint sort_desc (l : list network) : list network :=
  match l with
  | [] => []
  | x :: l' => insert_desc x (sort_desc l')
  end.

(** Lines 48 to 80: the records in the order of the text, the last one
    appended after the loop. *)
Definition collect_networks (stdout : string) : result (list network) :=
  '(networks, current_network) <-
     scan_lines ([], empty_network) (Py.split Py.nl stdout) ;;
  Ok (if network_nonempty current_network
      then (networks ++ [current_network])%list else networks).

(** ... and line 83, the sort. *)
Definition parse_scan (stdout : string) : result (list network) :=
  networks <- collect_networks stdout ;;
  Ok (sort_desc networks).

End Scan.

(** ** The outside world *)

(** The command lines the manager passes to [subprocess.run]. *)
Inductive command : Type :=
| IwlistScan              (* sudo iwlist wlan0 scan *)
| Iwgetid                 (* iwgetid -r *)
| CatWireless             (* cat /proc/net/wireless *)
| RestartWpaSupplicant    (* sudo systemctl restart wpa_supplicant *)
| WpaReconfigure          (* sudo wpa_cli -i wlan0 reconfigure *)
| ChmodConf               (* sudo chmod 600 /etc/wpa_supplicant/wpa_supplicant.conf *)
| HotspotStart (hs_ssid hs_password : string) (hs_channel : Z)
                          (* sudo <dir>/hotspot.sh start <ssid> <password> <channel> *)
| HotspotStop             (* sudo <dir>/hotspot.sh stop *)
| RestartDhcpcd           (* sudo systemctl restart dhcpcd *)
| StopHostapd             (* sudo systemctl stop hostapd *)
| StopDnsmasq             (* sudo systemctl stop dnsmasq *)
| FlushWlan0.             (* sudo ip addr flush dev wlan0 *)

Definition command_eqb (a b : command) : bool :=
  match a, b with
  | IwlistScan, IwlistScan | Iwgetid, Iwgetid | CatWireless, CatWireless
  | RestartWpaSupplicant, RestartWpaSupplicant
  | WpaReconfigure, WpaReconfigure | ChmodConf, ChmodConf
  | HotspotStop, HotspotStop | RestartDhcpcd, RestartDhcpcd
  | StopHostapd, StopHostapd | StopDnsmasq, StopDnsmasq
  | FlushWlan0, FlushWlan0 => true
  | HotspotStart s p c, HotspotStart s' p' c' =>
      String.eqb s s' && String.eqb p p' && (c =? c')
  | _, _ => false
  end.

(** What one run of a command does: it ends with an exit status and its
    two output streams, or [subprocess.run] raises (the time limit passed,
    the executable is missing, ...). *)
Inductive proc_outcome : Type :=
| Exited (returncode : Z) (out err : string)
| Failed (e : exn).

(** Everything a method observes of the machine it runs on, from its
    first external call on.
    - [w_proc c n]: the outcome of the run of [c] that [n] runs of [c]
      precede; for [CatWireless], [n] is the number of the link probe.
    - [w_interfaces k], [w_ifaddresses k]: within link probe number [k],
      [netifaces.interfaces()], and the [AF_INET] entry of
      [netifaces.ifaddresses('wlan0')]: absent, or the list of its
      dictionaries, each with its ['addr'] if it has one.
    - [w_conf]: the text of the configuration file ([None] when
      [exists()] is false), or what reading it raises.
    - [w_write]: what writing the configuration file raises, if anything.
    - [w_access]: [os.access] on the directory of [hostapd.conf]. *)
Record world : Type := {
  w_proc : command -> nat -> proc_outcome;
  w_interfaces : nat -> result (list string);
  w_ifaddresses : nat -> result (option (list (option string)));
  w_conf : result (option string);
  w_write : option exn;
  w_access : bool
}.

(** The external calls, as they are made. *)
Inductive event : Type :=
| Run (c : command)
| Sleep (seconds : nat)
| NetInterfaces
| NetIfaddresses
| ConfRead
| ConfWrite (text : string)
| Access.

(** ** State of the manager *)

(** Modelled from the spec: [config.schema.WiFiConfig], of which the
    manager reads and writes the last-configured credentials ([ssid],
    [password]) and reads the three hotspot settings.  An [ssid] that is
    not configured is [None] or empty. *)
Record WiFiConfig : Type := {
  ssid : option string;
  password : string;
  hotspot_ssid : string;
  hotspot_password : string;
  hotspot_channel : Z
}.

(** The attributes [__init__] calls "state tracking", and [config]. *)
Record wifi : Type := {
  connected : bool;
  hotspot_active : bool;
  current_ssid : option string;
  ip_address : option string;
  config : WiFiConfig
}.

(** [WiFiManager(wifi_config)] *)
Definition init (wifi_config : WiFiConfig) : wifi :=
  {| connected := false; hotspot_active := false;
     current_ssid := None; ip_address := None; config := wifi_config |}.

(** ** Methods as computations

    A method runs in a world, from a state of the manager and the calls
    made so far; it returns or raises, and leaves a state and a longer
    list of calls either way. *)

Record machine : Type := {
  self : wifi;
  calls : list event
}.

Definition M (A : Type) : Type := world -> machine -> result A * machine.

Definition ret {A : Type} (a : A) : M A := fun _ s => (Ok a, s).

Definition raise {A : Type} (e : exn) : M A := fun _ s => (Raise e, s).

Definition bind {A B : Type} (m : M A) (k : A -> M B) : M B :=
  fun w s =>
    match m w s with
    | (Ok a, s') => k a w s'
    | (Raise e, s') => (Raise e, s')
    end.

(** [try: m  except <classes>: h] *)
Definition try {A : Type} (m : M A) (classes : exn -> bool) (h : M A) : M A :=
  fun w s =>
    match m w s with
    | (Raise e, s') => if classes e then h w s' else (Raise e, s')
    | r => r
    end.

Definition lift {A : Type} (r : result A) : M A := fun _ s => (r, s).

Definition ask : M world := fun w s => (Ok w, s).

Definition get : M wifi := fun _ s => (Ok (self s), s).

Definition modify (f : wifi -> wifi) : M unit :=
  fun _ s => (Ok tt, {| self := f (self s); calls := calls s |}).

Definition emit (e : event) : M unit :=
  fun _ s => (Ok tt, {| self := self s; calls := (calls s ++ [e])%list |}).

Declare Scope py_scope.
Delimit Scope py_scope with py.
Notation "x <- m ;; k" := (bind m (fun x => k))
  (at level 61, m at next level, right associativity) : py_scope.
Notation "m ;; k" := (bind m (fun _ => k))
  (at level 61, right associativity) : py_scope.

(** Exception classes named in the [except] clauses. *)
Definition any_exception (_ : exn) : bool := true.
Definition is_SubprocessError (e : exn) : bool :=
  match e with TimeoutExpired | CalledProcessError => true | _ => false end.
Definition is_OSError (e : exn) : bool :=
  match e with
  | FileNotFoundError | PermissionError | OSError => true
  | _ => false
  end.

Fixpoint runs_of (c : command) (l : list event) : nat :=
  match l with
  | [] => O
  | Run c' :: l' => if command_eqb c c' then S (runs_of c l') else runs_of c l'
  | _ :: l' => runs_of c l'
  end.

Record completed : Type := {
  returncode : Z;
  stdout : string;
  stderr : string
}.

(** [subprocess.run(c, timeout=..., check=...)], its outcome taken at
    index [n] of the world. *)
Definition subprocess_run_at (c : command) (n : nat)
    (timeout : option nat) (check : bool) : M completed :=
  (emit (Run c) ;;
   w <- ask ;;
   match w_proc w c n with
   | Exited rc out err =>
       if check && negb (rc =? 0) then raise CalledProcessError
       else ret {| returncode := rc; stdout := out; stderr := err |}
   | Failed e => raise e
   end)%py.

Definition subprocess_run (c : command) (timeout : option nat) (check : bool)
  : M completed :=
  fun w s => subprocess_run_at c (runs_of c (calls s)) timeout check w s.

(** [time.sleep(n)] *)
Definition sleep (n : nat) : M unit := emit (Sleep n).

Section Methods.
Local Open Scope py_scope.

(** *** [scan_networks] *)

Definition scan_networks : M (list network) :=
  try
    (subprocess_run IwlistScan (Some 10%nat) false ;;
     sleep 2 ;;
     result <- subprocess_run IwlistScan (Some 10%nat) false ;;
     lift (parse_scan (stdout result)))
    any_exception
    (ret []).

(** *** [get_current_network_info] *)

Record network_info : Type := {
  info_ssid : option string;
  info_ip_address : option string;
  info_signal_strength : option string;
  info_connected : bool
}.

Definition is_some {A : Type} (o : option A) : bool :=
  match o with Some _ => true | None => false end.

(** The loop over the lines of [/proc/net/wireless]: the first line that
    mentions the interface decides. *)
Definition signal_of (out : string) : result (option string) :=
  match find (Py.contains "wlan0") (Py.split Py.nl out) with
  | Some line =>
      let parts := Py.split_ws line in
      if (4 <=? List.length parts)%nat
      then rbind (Py.index parts 3) (fun p => Ok (Some (Py.rstrip_chars "." p)))
      else Ok None
  | None => Ok None
  end.

(** [addrs[netifaces.AF_INET][0]['addr']] *)
Definition first_addr (entries : list (option string)) : result string :=
  rbind (Py.index entries 0)
        (fun d => match d with Some a => Ok a | None => Raise KeyError end).

(** The body of the method for link probe number [k]. *)
Definition probe_link (k : nat) : M network_info :=
  try
    (result <- subprocess_run_at Iwgetid k None false ;;
     let current_ssid :=
       if returncode result =? 0 then Some (Py.strip (stdout result)) else None in
     w <- ask ;;
     ip_address <-
       try
         (emit NetInterfaces ;;
          interfaces <- lift (w_interfaces w k) ;;
          if existsb (String.eqb "wlan0") interfaces then
            emit NetIfaddresses ;;
            addrs <- lift (w_ifaddresses w k) ;;
            match addrs with
            | Some entries => a <- lift (first_addr entries) ;; ret (Some a)
            | None => ret None
            end
          else ret None)
         (fun e => match e with KeyError | IndexError => true | _ => is_OSError e end)
         (ret None) ;;
     signal_strength <-
       try
         (result <- subprocess_run_at CatWireless k None false ;;
          lift (signal_of (stdout result)))
         (fun e => match e with
                   | FileNotFoundError | IndexError => true
                   | _ => is_SubprocessError e
                   end)
         (ret None) ;;
     ret {| info_ssid := current_ssid;
            info_ip_address := ip_address;
            info_signal_strength := signal_strength;
            info_connected := is_some current_ssid && is_some ip_address |})
    any_exception
    (ret {| info_ssid := None; info_ip_address := None;
            info_signal_strength := None; info_connected := false |}).

Definition get_current_network_info : M network_info :=
  fun w s => probe_link (runs_of Iwgetid (calls s)) w s.

(** *** [_update_wpa_supplicant] *)

(** Text mode: ["\r\n"] and a lone ["\r"] are read as ["\n"]. *)
Fixpoint universal_newlines (s : string) : string :=
  match s with
  | EmptyString => EmptyString
  | String c s' =>
      if Ascii.eqb c (ascii_of_nat 13) then
        match s' with
        | String d _ =>
            if Ascii.eqb d (ascii_of_nat 10) then universal_newlines s'
            else String (ascii_of_nat 10) (universal_newlines s')
        | EmptyString => Py.nl
        end
      else String c (universal_newlines s')
  end.

(** [f.readlines()] on text already in memory: every line keeps its
    newline; [cur] is the current line in reverse. *)
Fixpoint lines_of (cur s : string) : list string :=
  match s with
  | EmptyString =>
      match cur with EmptyString => [] | _ => [Py.rev_string "" cur] end
  | String c s' =>
      if Ascii.eqb c (ascii_of_nat 10)
      then Py.rev_string "" (String c cur) :: lines_of "" s'
      else lines_of (String c cur) s'
  end.

Definition readlines (text : string) : list string :=
  lines_of "" (universal_newlines text).

(** The variables of the loop that filters the old blocks.  [current_block]
    is assigned inside the loop only: it is [None] until then. *)
Record filter_state : Type := {
  new_lines : list string;
  in_network_block : bool;
  network_ssid : option string;
  current_block : option (list string)
}.

Definition read_current_block (st : filter_state) : result (list string) :=
  match current_block st with
  | Some b => Ok b
  | None => Raise UnboundLocalError
  end.

Definition ssid_differs (network_ssid : option string) (target : string) : bool :=
  match network_ssid with
  | Some s => negb (String.eqb s target)
  | None => true
  end.

(** One iteration of [for line in config_lines]. *)
Definition filter_line (target : string) (st : filter_state) (line : string)
  : result filter_state :=
  let stripped := Py.strip line in
  if Py.startswith "network={" stripped then
    Ok {| new_lines := new_lines st; in_network_block := true;
          network_ssid := None; current_block := current_block st |}
  else if String.eqb stripped "}" && in_network_block st then
    rbind
      (if ssid_differs (network_ssid st) target
       then rbind (read_current_block st)
                  (fun b => Ok (new_lines st ++ b ++ [line])%list)
       else Ok (new_lines st))
      (fun kept =>
         Ok {| new_lines := kept; in_network_block := false;
               network_ssid := network_ssid st; current_block := Some [] |})
  else if in_network_block st then
    if Py.startswith "ssid=" stripped then
      rbind (Py.index (Py.split "=" line) 1)
        (fun v =>
           Ok {| new_lines := new_lines st; in_network_block := true;
                 network_ssid := Some (Py.strip_chars Py.dquote (Py.strip v));
                 current_block := Some ["network={" ++ Py.nl; line] |})
    else
      rbind (read_current_block st)
        (fun b =>
           Ok {| new_lines := new_lines st; in_network_block := true;
                 network_ssid := network_ssid st;
                 current_block := Some (b ++ [line])%list |})
  else
    Ok {| new_lines := (new_lines st ++ [line])%list; in_network_block := false;
          network_ssid := network_ssid st; current_block := current_block st |}.

Fixpoint filter_lines (target : string) (st : filter_state) (config_lines : list string)
  : result filter_state :=
  match config_lines with
  | [] => Ok st
  | line :: rest =>
      rbind (filter_line target st line) (fun st' => filter_lines target st' rest)
  end.

(** The block appended for the requested network. *)
Definition new_block (target pass : string) : list string :=
  [ Py.nl ++ "network={" ++ Py.nl;
    "    ssid=" ++ Py.dquote ++ target ++ Py.dquote ++ Py.nl;
    match pass with
    | EmptyString => "    key_mgmt=NONE" ++ Py.nl
    | _ => "    psk=" ++ Py.dquote ++ pass ++ Py.dquote ++ Py.nl
    end;
    "    priority=1" ++ Py.nl;
    "}" ++ Py.nl ].

(** From [config_lines] to the [new_lines] that are written. *)
Definition rewrite_config (target pass : string) (config_lines : list string)
  : result (list string) :=
  rbind
    (filter_lines target
       {| new_lines := []; in_network_block := false;
          network_ssid := None; current_block := None |}
       config_lines)
    (fun st => Ok (new_lines st ++ new_block target pass)%list).

Definition _update_wpa_supplicant (target pass : string) : M bool :=
  try
    (w <- ask ;;
     emit ConfRead ;;
     existing <- lift (w_conf w) ;;
     let config_lines :=
       match existing with Some text => readlines text | None => [] end in
     lines <- lift (rewrite_config target pass config_lines) ;;
     emit (ConfWrite (Py.join lines)) ;;
     match w_write w with Some e => raise e | None => ret tt end ;;
     subprocess_run ChmodConf None false ;;
     ret true)
    any_exception
    (ret false).

(** *** [stop_hotspot] *)

Definition clear_hotspot (s : wifi) : wifi :=
  {| connected := connected s; hotspot_active := false;
     current_ssid := current_ssid s; ip_address := ip_address s;
     config := config s |}.

(** The classes of the [except] clause of [stop_hotspot]. *)
Definition stop_handled (e : exn) : bool :=
  match e with
  | TimeoutExpired | CalledProcessError | FileNotFoundError => true
  | _ => false
  end.

Definition stop_hotspot : M bool :=
  try
    (result <- subprocess_run HotspotStop (Some 30%nat) false ;;
     if returncode result =? 0 then
       modify clear_hotspot ;;
       subprocess_run RestartDhcpcd (Some 10%nat) false ;;
       ret true
     else
       subprocess_run StopHostapd None true ;;
       subprocess_run StopDnsmasq None true ;;
       subprocess_run FlushWlan0 None true ;;
       modify clear_hotspot ;;
       ret false)
    stop_handled
    (modify clear_hotspot ;; ret false).

(** *** [start_hotspot] *)

Definition enter_hotspot (s : wifi) : wifi :=
  {| connected := false; hotspot_active := true;
     current_ssid := None; ip_address := Some "192.168.24.1";
     config := config s |}.

Definition start_hotspot : M bool :=
  try
    (emit Access ;;
     try
       (s <- get ;;
        result <- subprocess_run
                    (HotspotStart (hotspot_ssid (config s))
                                  (hotspot_password (config s))
                                  (hotspot_channel (config s)))
                    (Some 30%nat) false ;;
        if returncode result =? 0 then modify enter_hotspot ;; ret true
        else ret false)
       (fun e => match e with
                 | TimeoutExpired | FileNotFoundError | PermissionError => true
                 | _ => false
                 end)
       (ret false))
    any_exception
    (ret false).

(** *** [connect_to_network] *)

Definition option_string_eqb (a : option string) (b : string) : bool :=
  match a with Some s => String.eqb s b | None => false end.

Definition enter_client (target pass : string) (ip : option string) (s : wifi) : wifi :=
  {| connected := true; hotspot_active := false;
     current_ssid := Some target; ip_address := ip;
     config := {| ssid := Some target; password := pass;
                  hotspot_ssid := hotspot_ssid (config s);
                  hotspot_password := hotspot_password (config s);
                  hotspot_channel := hotspot_channel (config s) |} |}.

(** [for attempt in range(attempts)]: ... and the [return False] after it. *)
Fixpoint wait_for_connection (attempts : nat) (target pass : string) : M bool :=
  match attempts with
  | O => ret false
  | S n =>
      sleep 1 ;;
      network_info <- get_current_network_info ;;
      if info_connected network_info
         && option_string_eqb (info_ssid network_info) target
      then modify (enter_client target pass (info_ip_address network_info)) ;;
           ret true
      else wait_for_connection n target pass
  end.

Definition connect_to_network (target pass : string) : M bool :=
  try
    (s <- get ;;
     (if hotspot_active s then (_ <- stop_hotspot ;; ret tt) else ret tt) ;;
     written <- _update_wpa_supplicant target pass ;;
     if negb written then ret false
     else
       subprocess_run RestartWpaSupplicant None false ;;
       sleep 2 ;;
       subprocess_run WpaReconfigure None false ;;
       wait_for_connection 30 target pass)
    any_exception
    (ret false).

(** *** [connect] *)

Definition connect : M bool :=
  s <- get ;;
  match ssid (config s) with
  | None | Some EmptyString => ret false
  | Some target => connect_to_network target (password (config s))
  end.

(** *** [get_status] *)

Record status : Type := {
  st_connected : bool;
  st_hotspot_active : bool;
  st_current_ssid : option string;
  st_ip_address : option string;
  st_configured_ssid : option string;
  st_hotspot_ssid : string;
  st_signal_strength : option string;
  st_network_info : network_info
}.

Definition get_status : M status :=
  network_info <- get_current_network_info ;;
  s <- get ;;
  ret {| st_connected := connected s;
         st_hotspot_active := hotspot_active s;
         st_current_ssid := current_ssid s;
         st_ip_address := ip_address s;
         st_configured_ssid := ssid (config s);
         st_hotspot_ssid := hotspot_ssid (config s);
         st_signal_strength := info_signal_strength network_info;
         st_network_info := network_info |}.

(** *** [cleanup] *)

Definition cleanup : M unit :=
  s <- get ;;
  if hotspot_active s then (_ <- stop_hotspot ;; ret tt) else ret tt.

End Methods.

(** Running a method as a call of its own: no external call precedes. *)
Definition call {A : Type} (m : M A) (w : world) (s : wifi) : result A * wifi * list event :=
  let '(r, s') := m w {| self := s; calls := [] |} in
  (r, self s', calls s').

(** ** Vocabulary of the properties *)

(** *** Scan text *)

(** The branch of the loop of [scan_networks] that a stripped line takes. *)
Inductive line_kind : Type :=
| CellLine | EssidLine | QualityLine | EncryptionLine | OtherLine.

Definition classify (line : string) : line_kind :=
  if is_cell line then CellLine
  else if Py.contains "ESSID:" line then EssidLine
  else if Py.contains "Quality=" line then QualityLine
  else if Py.contains "Encryption key:" line then EncryptionLine
  else OtherLine.

(** A ratio that is a fraction of its non-zero maximum. *)
Definition valid_ratio (c m : Z) : bool := (0 <=? c) && (c <=? m) && (0 <? m).

(** The quality line [raw], when it holds a ratio of two integers, holds a
    valid one. *)
Definition ratio_ok (raw : string) : bool :=
  let line := Py.strip raw in
  match classify line with
  | QualityLine =>
      match quality_operands line with
      | Ok (Some (c, m)) => valid_ratio c m
      | _ => true
      end
  | _ => true
  end.

(** The lines as the loop takes them, whatever the text means by them. *)



Definition scan_text_lines (out : string) : list string := Py.split Py.nl out.




(** The stanzas as the text has them. *)

(** A stanza of the text opens with a line [Cell <nn> - Address: <bssid>]. *)
Definition starts_cell (line : string) : bool := Py.startswith "Cell " line.

(** A line that holds the key of a field. *)
Definition field_line (line : string) : bool :=
  Py.contains "ESSID:" line || Py.contains "Quality=" line
  || Py.contains "Encryption key:" line.

(** The opening line of a stanza has an address. *)
Definition opening_ok (raw : string) : bool :=
  let line := Py.strip raw in
  if starts_cell line then Py.contains "Address: " line else true.


(** No field precedes the first stanza. *)
Fixpoint preamble_ok (lines : list string) : bool :=
  match lines with
  | [] => true
  | raw :: rest =>
      if starts_cell (Py.strip raw) then true
      else negb (field_line (Py.strip raw)) && preamble_ok rest
  end.

(** The text is a sequence of well-formed stanzas. *)
Definition well_formed (out : string) : bool :=
  preamble_ok (scan_text_lines out)
  && forallb opening_ok (scan_text_lines out)
  && forallb ratio_ok (scan_text_lines out).




(** The number of stanzas of the text. *)
Definition stanzas (out : string) : nat :=
  List.length (filter (fun raw => starts_cell (Py.strip raw)) (scan_text_lines out)).

Definition quality_in_range (n : network) : Prop :=
  match net_quality n with
  | Some q => 0 <= q <= 100
  | None => True
  end.




(** *** Results of a call *)

Definition returned {A : Type} (x : result A * wifi * list event) : result A :=
  fst (fst x).
Definition state_after {A : Type} (x : result A * wifi * list event) : wifi :=
  snd (fst x).
Definition calls_made {A : Type} (x : result A * wifi * list event) : list event :=
  snd x.

(** The text the second run of the scan command prints. *)
Definition scan_output (w : world) : string :=
  match w_proc w IwlistScan 1 with
  | Exited _ out _ => out
  | Failed _ => ""
  end.

(** *** Hotspot *)

(** The calls [stop_hotspot] can make. *)
Definition hotspot_event (e : event) : bool :=
  match e with
  | Run HotspotStop | Run RestartDhcpcd
  | Run StopHostapd | Run StopDnsmasq | Run FlushWlan0 => true
  | _ => false
  end.

(** An outcome that [stop_hotspot] survives: the command ends, or raises
    an exception of a class the method handles. *)
Definition benign (o : proc_outcome) : bool :=
  match o with
  | Exited _ _ _ => true
  | Failed e => stop_handled e
  end.

(** The manual fallback, in the order of the source. *)
Definition manual_commands : list command := [StopHostapd; StopDnsmasq; FlushWlan0].

(** The commands of [cmds] that are issued when each is run with
    [check=True]: up to the first that does not exit with status 0. *)
Fixpoint issued (w : world) (cmds : list command) : list command :=
  match cmds with
  | [] => []
  | c :: rest =>
      c :: match w_proc w c 0 with
           | Exited 0 _ _ => issued w rest
           | _ => []
           end
  end.

(** *** Connection *)

Definition blank : machine :=
  {| self := init {| ssid := None; password := ""; hotspot_ssid := "";
                     hotspot_password := ""; hotspot_channel := 0 |};
     calls := [] |}.

Definition no_link : network_info :=
  {| info_ssid := None; info_ip_address := None;
     info_signal_strength := None; info_connected := false |}.

(** What link probe number [k] reports; the state of the manager has no
    part in it. *)
Definition probe_report (w : world) (k : nat) : network_info :=
  match fst (probe_link k w blank) with
  | Ok info => info
  | Raise _ => no_link
  end.

(** The test of the polling loop on the report of probe [k]. *)
Definition link_matches (w : world) (target : string) (k : nat) : bool :=
  info_connected (probe_report w k)
  && option_string_eqb (info_ssid (probe_report w k)) target.

(** The first of the probes [from], ..., [from + attempts - 1] that
    matches. *)
Fixpoint first_match (w : world) (target : string) (from attempts : nat) : option nat :=
  match attempts with
  | O => None
  | S n => if link_matches w target from then Some from
           else first_match w target (S from) n
  end.

(** Neither the restart of the supplicant nor its reconfiguration fails
    to start. *)
Definition daemons_launch (w : world) : bool :=
  match w_proc w RestartWpaSupplicant 0, w_proc w WpaReconfigure 0 with
  | Exited _ _ _, Exited _ _ _ => true
  | _, _ => false
  end.

(** [connect_to_network] from the rewrite of the configuration on, that
    is, once the hotspot has been dealt with. *)
Definition connect_steps (target pass : string) : M bool :=
  (written <- _update_wpa_supplicant target pass ;;
   if negb written then ret false
   else
     subprocess_run RestartWpaSupplicant None false ;;
     sleep 2 ;;
     subprocess_run WpaReconfigure None false ;;
     wait_for_connection 30 target pass)%py.

(** The calls of [_update_wpa_supplicant], and those a link probe makes
    after [iwgetid]. *)
Definition conf_event (e : event) : bool :=
  match e with
  | ConfRead | ConfWrite _ | Run ChmodConf => true
  | _ => false
  end.

Definition probe_tail_event (e : event) : bool :=
  match e with
  | NetInterfaces | NetIfaddresses | Run CatWireless => true
  | _ => false
  end.

Fixpoint sleeps_of (seconds : nat) (l : list event) : nat :=
  match l with
  | [] => O
  | Sleep n :: l' => if Nat.eqb n seconds then S (sleeps_of seconds l')
                     else sleeps_of seconds l'
  | _ :: l' => sleeps_of seconds l'
  end.

(** *** The state machine *)

(** The two flags are not both set, and a network name is recorded only
    in client mode. *)
Definition mode_invariant (s : wifi) : Prop :=
  ~ (connected s = true /\ hotspot_active s = true)
  /\ (current_ssid s <> None -> connected s = true).

Inductive operation : Type :=
| ConnectToNetwork (target pass : string)
| Connect
| StartHotspot
| StopHotspot
| GetStatus
| Cleanup.

(** The state a call leaves, whether it returns or raises. *)
Definition perform (o : operation) (w : world) (s : wifi) : wifi :=
  match o with
  | ConnectToNetwork target pass => state_after (call (connect_to_network target pass) w s)
  | Connect => state_after (call connect w s)
  | StartHotspot => state_after (call start_hotspot w s)
  | StopHotspot => state_after (call stop_hotspot w s)
  | GetStatus => state_after (call get_status w s)
  | Cleanup => state_after (call cleanup w s)
  end.

(** The states of a manager after any number of calls, each in a world
    of its own. *)
Inductive reachable : wifi -> Prop :=
| reach_init (wifi_config : WiFiConfig) : reachable (init wifi_config)
| reach_call (s : wifi) (o : operation) (w : world) :
    reachable s -> reachable (perform o w s).

(** *** Further vocabulary *)

(** The command line of the helper script for the configured hotspot. *)
Definition hotspot_start_command (s : wifi) : command :=
  HotspotStart (hotspot_ssid (config s)) (hotspot_password (config s))
               (hotspot_channel (config s)).

(** The helper script exits with status 0 on [start]. *)
Definition helper_started (w : world) (s : wifi) : bool :=
  match w_proc w (hotspot_start_command s) 0 with
  | Exited 0 _ _ => true
  | _ => false
  end.

(** No record says "not encrypted". *)
Definition never_unencrypted (n : network) : Prop := net_encrypted n <> Some false.

(** What holds of the fields beyond the two flags. *)
Definition fields_invariant (s : wifi) : Prop :=
  (connected s = true -> current_ssid s <> None /\ current_ssid s = ssid (config s))
  /\ (hotspot_active s = true ->
      connected s = false /\ current_ssid s = None
      /\ ip_address s = Some "192.168.24.1").

(** *** Configuration files in the usual layout *)

(** A file as a sequence of lines outside any block and of blocks that
    open with the line [network={], give their name next, on an indented
    line [ssid="<name>"], then their other settings, and close. *)
Inductive item : Type :=
| Outside (line : string)
| Block (indent name : string) (body : list string) (close : string).

Definition header : string := "network={" ++ Py.nl.

(** The line that gives a block its name. *)
Definition name_line (indent name : string) : string :=
  indent ++ "ssid=" ++ Py.dquote ++ name ++ Py.dquote ++ Py.nl.

Definition item_lines (i : item) : list string :=
  match i with
  | Outside line => [line]
  | Block indent name body close =>
      (header :: name_line indent name :: body ++ [close])%list
  end.

(** The three tests of the loop of [_update_wpa_supplicant] on a line. *)
Definition opens (line : string) : bool := Py.startswith "network={" (Py.strip line).
Definition closes (line : string) : bool := String.eqb (Py.strip line) "}".
Definition names (line : string) : bool := Py.startswith "ssid=" (Py.strip line).

Definition body_line_ok (line : string) : bool :=
  negb (opens line) && negb (closes line) && negb (names line).

(** Whitespace only. *)
Fixpoint indentation (s : string) : bool :=
  match s with
  | EmptyString => true
  | String c s' => Py.is_space c && indentation s'
  end.

Definition line_break (c : ascii) : bool :=
  Ascii.eqb c (ascii_of_nat 10) || Ascii.eqb c (ascii_of_nat 13).

(** No line break in the string. *)
Fixpoint plain (s : string) : bool :=
  match s with
  | EmptyString => true
  | String c s' => negb (line_break c) && plain s'
  end.

(** A network name that the file gives back as it is: no line break, no
    ['='], no double quote at either end. *)
Definition plain_name (t : string) : bool :=
  plain t && negb (Py.mem_char "=" t) && String.eqb (Py.strip_chars Py.dquote t) t.

(** The usual layout: a line outside a block does not open one; the name
    of a block is a plain name; its other settings neither open, close nor
    name a block; its last line closes it. *)
Definition item_ok (i : item) : bool :=
  match i with
  | Outside line => negb (opens line)
  | Block indent name body close =>
      indentation indent && plain_name name
      && forallb body_line_ok body && closes close
  end.

(** The name the loop reads off the [ssid] line of a block. *)
Definition block_ssid (ssid_line : string) : string :=
  match Py.split "=" ssid_line with
  | _ :: v :: _ => Py.strip_chars Py.dquote (Py.strip v)
  | _ => ""
  end.

(** The items that are not a block named [target]. *)
Definition kept (target : string) (i : item) : bool :=
  match i with
  | Outside _ => true
  | Block _ name _ _ => negb (String.eqb name target)
  end.

(** *** Reading back what was written *)

(** The lines the next call finds in a file written with [lines]. *)
Definition reread (lines : list string) : list string := readlines (Py.join lines).

(** One line of a file: no line break but the newline that ends it. *)
Fixpoint proper_line (l : string) : bool :=
  match l with
  | EmptyString => false
  | String c l' =>
      if Ascii.eqb c (ascii_of_nat 10)
      then match l' with EmptyString => true | _ => false end
      else negb (line_break c) && proper_line l'
  end.

(** The lines of the new block, as they are read back. *)
Definition key_line (pass : string) : string :=
  match pass with
  | EmptyString => "    key_mgmt=NONE" ++ Py.nl
  | _ => "    psk=" ++ Py.dquote ++ pass ++ Py.dquote ++ Py.nl
  end.

Definition new_block_item (target pass : string) : item :=
  Block "    " target [key_line pass; "    priority=1" ++ Py.nl] ("}" ++ Py.nl).

(** ** Concrete inputs *)

Module Examples.

Definition text (lines : list string) : string := String.concat Py.nl lines.

Definition quoted (s : string) : string := Py.dquote ++ s ++ Py.dquote.

Definition cfg : WiFiConfig :=
  {| ssid := None; password := "";
     hotspot_ssid := "LOOP-Setup"; hotspot_password := "loopsetup";
     hotspot_channel := 6 |}.

(** A world in which every command exits with status 0 and prints
    nothing, but for the scan, which prints [out]; the interface has no
    address and the configuration file does not exist yet. *)
Definition scanning (out : string) : world :=
  {| w_proc := fun c _ =>
       match c with
       | IwlistScan => Exited 0 out ""
       | _ => Exited 0 "" ""
       end;
     w_interfaces := fun _ => Ok ["lo"; "wlan0"];
     w_ifaddresses := fun _ => Ok None;
     w_conf := Ok None;
     w_write := None;
     w_access := true |}.

(** Four stanzas; the first and the last have the same quality, the third
    has a quality that is not a ratio. *)
Definition scan_four : string :=
  text [ "wlan0     Scan completed :";
         "          Cell 01 - Address: AA:BB:CC:DD:EE:01";
         "                    Channel:6";
         "                    Quality=45/70  Signal level=-65 dBm";
         "                    Encryption key:on";
         "                    ESSID:" ++ quoted "Home";
         "          Cell 02 - Address: AA:BB:CC:DD:EE:02";
         "                    Quality=70/70  Signal level=-30 dBm";
         "                    Encryption key:off";
         "                    ESSID:" ++ quoted "";
         "          Cell 03 - Address: AA:BB:CC:DD:EE:03";
         "                    Quality=good  Signal level=-50 dBm";
         "                    ESSID:" ++ quoted "Cafe";
         "          Cell 04 - Address: AA:BB:CC:DD:EE:04";
         "                    Quality=45/70  Signal level=-64 dBm";
         "                    ESSID:" ++ quoted "Guest";
         "" ].

(** Two stanzas, the first with a ratio over a maximum of zero. *)
Definition scan_zero_max : string :=
  text [ "wlan0     Scan completed :";
         "          Cell 01 - Address: AA:BB:CC:DD:EE:01";
         "                    Quality=0/0  Signal level=-65 dBm";
         "                    ESSID:" ++ quoted "Home";
         "          Cell 02 - Address: AA:BB:CC:DD:EE:02";
         "                    Quality=70/70  Signal level=-30 dBm";
         "                    ESSID:" ++ quoted "Cafe";
         "" ].

(** One stanza, of a network named [Cell Address: x]. *)
Definition scan_cell_in_essid : string :=
  text [ "wlan0     Scan completed :";
         "          Cell 01 - Address: AA:BB:CC:DD:EE:01";
         "                    Quality=70/70  Signal level=-30 dBm";
         "                    Encryption key:on";
         "                    ESSID:" ++ quoted "Cell Address: x";
         "" ].

(** One stanza, its ratio above its maximum. *)
Definition scan_over_max : string :=
  text [ "wlan0     Scan completed :";
         "          Cell 01 - Address: AA:BB:CC:DD:EE:01";
         "                    Quality=80/70  Signal level=-20 dBm";
         "                    ESSID:" ++ quoted "Home";
         "" ].

(** A world given by the outcomes of its commands; the rest as in
    [scanning]. *)
Definition running (proc : command -> nat -> proc_outcome) : world :=
  {| w_proc := proc;
     w_interfaces := fun _ => Ok ["lo"; "wlan0"];
     w_ifaddresses := fun _ => Ok None;
     w_conf := Ok None;
     w_write := None;
     w_access := true |}.

(** The helper script fails on [stop], and so does the stop of the
    access-point service. *)
Definition helper_and_hostapd_fail : world :=
  running (fun c _ =>
             match c with
             | HotspotStop => Exited 1 "" "hostapd: no such process"
             | StopHostapd => Exited 5 "" "Unit hostapd.service not loaded."
             | _ => Exited 0 "" ""
             end).

(** The helper script succeeds on [stop]; the restart of [dhcpcd] does not
    end within its 10 seconds. *)
Definition dhcpcd_hangs : world :=
  running (fun c _ =>
             match c with
             | RestartDhcpcd => Failed TimeoutExpired
             | _ => Exited 0 "" ""
             end).

(** Every command exits with status 0; no configuration file yet. *)
Definition fresh : world := running (fun _ _ => Exited 0 "" "").

(** The manager while the hotspot is up. *)
Definition in_hotspot : wifi := enter_hotspot (init cfg).

(** A file of lines. *)
Definition file (lines : list string) : string :=
  String.concat "" (map (fun l => l ++ Py.nl) lines).

(** A configuration with two networks; the block of the second sets
    [scan_ssid] before its [ssid]. *)
Definition conf_two_blocks : list string :=
  [ "ctrl_interface=DIR=/var/run/wpa_supplicant GROUP=netdev";
    "network={";
    "    ssid=" ++ quoted "Home";
    "    psk=" ++ quoted "homepass";
    "}";
    "network={";
    "    scan_ssid=1";
    "    ssid=" ++ quoted "Cafe";
    "    psk=" ++ quoted "cafepass";
    "}" ].

(** What is written for it when ["Office"] is added: the line
    [scan_ssid=1] of the block of ["Cafe"] is gone. *)
Definition conf_two_blocks_rewritten : list string :=
  [ "ctrl_interface=DIR=/var/run/wpa_supplicant GROUP=netdev";
    "network={";
    "    ssid=" ++ quoted "Home";
    "    psk=" ++ quoted "homepass";
    "}";
    "network={";
    "    ssid=" ++ quoted "Cafe";
    "    psk=" ++ quoted "cafepass";
    "}";
    "";
    "network={";
    "    ssid=" ++ quoted "Office";
    "    psk=" ++ quoted "officepass";
    "    priority=1";
    "}" ].

(** A world whose configuration file holds [text]. *)
Definition configured (text : string) : world :=
  {| w_proc := fun _ _ => Exited 0 "" "";
     w_interfaces := fun _ => Ok ["lo"; "wlan0"];
     w_ifaddresses := fun _ => Ok None;
     w_conf := Ok (Some text);
     w_write := None;
     w_access := true |}.

(** The file left by a first connection to the network ["Wi=Fi"]. *)
Definition conf_wi_fi : list string :=
  [ "";
    "network={";
    "    ssid=" ++ quoted "Wi=Fi";
    "    psk=" ++ quoted "pass";
    "    priority=1";
    "}" ].

(** The device is associated to ["Old"] with an address, and stays so:
    every probe reports that link. *)
Definition still_on_old : world :=
  {| w_proc := fun c _ =>
       match c with
       | Iwgetid => Exited 0 ("Old" ++ Py.nl) ""
       | _ => Exited 0 "" ""
       end;
     w_interfaces := fun _ => Ok ["lo"; "wlan0"];
     w_ifaddresses := fun _ => Ok (Some [Some "192.168.1.20"]);
     w_conf := Ok None;
     w_write := None;
     w_access := true |}.

(** The manager after it has connected to ["Old"]. *)
Definition on_old : wifi :=
  enter_client "Old" "oldpass" (Some "192.168.1.20") (init cfg).

(** The link to ["Home"] comes up at the third probe. *)
Definition joining : world :=
  {| w_proc := fun c n =>
       match c with
       | Iwgetid => if (n <? 2)%nat then Exited 255 "" ""
                    else Exited 0 ("Home" ++ Py.nl) ""
       | _ => Exited 0 "" ""
       end;
     w_interfaces := fun _ => Ok ["lo"; "wlan0"];
     w_ifaddresses := fun _ => Ok (Some [Some "192.168.1.17"]);
     w_conf := Ok None;
     w_write := None;
     w_access := true |}.

(** A configuration in the usual layout, with blocks for ["Home"] and
    ["Cafe"] and a comment between them. *)
Definition conf_items : list item :=
  [ Outside ("ctrl_interface=DIR=/var/run/wpa_supplicant GROUP=netdev" ++ Py.nl);
    Outside ("country=US" ++ Py.nl);
    Block "    " "Home"
          [ "    psk=" ++ quoted "homepass" ++ Py.nl;
            "    priority=1" ++ Py.nl ]
          ("}" ++ Py.nl);
    Outside ("# the cafe downstairs" ++ Py.nl);
    Block "    " "Cafe"
          [ "    key_mgmt=NONE" ++ Py.nl ]
          ("}" ++ Py.nl) ].

(** The file written from [conf_items] for the network ["Cafe"]. *)
Definition conf_items_written : string :=
  Py.join (flat_map item_lines (filter (kept "Cafe") conf_items)
           ++ new_block "Cafe" "cafepass")%list.

End Examples.

(** * Properties *)

(** ** Rounding *)

Module NumFacts.
Import Num.

Lemma round_half_even_le (n d K : Z) :
  0 < d -> n <= K * d -> round_half_even n d <= K.
Proof.
  intros Hd Hn. unfold round_half_even.
  pose proof (Z.div_mod n d ltac:(lia)) as Hdm.
  pose proof (Z.mod_pos_bound n d Hd) as Hr.
  assert (Hq : n / d <= K) by (apply Z.div_le_upper_bound; lia).
  destruct (Z.compare_spec (2 * (n mod d)) d) as [He | Hl | Hg].
  - destruct (Z.even (n / d)); [lia | nia].
  - lia.
  - nia.
Qed.

Lemma round_half_even_nonneg (n d : Z) :
  0 <= n -> 0 < d -> 0 <= round_half_even n d.
Proof.
  intros Hn Hd. unfold round_half_even.
  assert (Hq : 0 <= n / d) by (apply Z.div_pos; lia).
  destruct (2 * (n mod d) ?= d); [destruct (Z.even (n / d)) | | ]; lia.
Qed.

(** A ratio below [2^(E+1)] has its leading bit at position [E] at most. *)
Lemma floor_log2_ratio_le (n d E : Z) :
  0 < n -> 0 < d -> 0 <= E -> n < 2 ^ (E + 1) * d ->
  floor_log2_ratio n d <= E.
Proof.
  intros Hn Hd HE Hlt. unfold floor_log2_ratio, scaled_le.
  set (e0 := Z.log2 n - Z.log2 d).
  destruct (Z.log2_spec n Hn) as [Hn1 Hn2].
  destruct (Z.log2_spec d Hd) as [Hd1 Hd2].
  pose proof (Z.log2_nonneg n) as Ln. pose proof (Z.log2_nonneg d) as Ld.
  assert (He0 : e0 <= E + 1).
  { assert (Hb : Z.log2 n < E + 1 + (Z.log2 d + 1)).
    { apply Z.log2_lt_pow2; [lia |].
      rewrite Z.pow_add_r by lia.
      assert (0 < 2 ^ (E + 1)) by (apply Z.pow_pos_nonneg; lia).
      nia. }
    unfold e0. lia. }
  destruct (Z.leb_spec 0 e0) as [Hpos | Hneg].
  - destruct (Z.leb_spec (d * 2 ^ e0) n) as [Hle | Hgt]; [| lia].
    destruct (Z.eq_dec e0 (E + 1)) as [Heq | Hne]; [| lia].
    rewrite Heq in Hle. nia.
  - destruct (d <=? n * 2 ^ (- e0)); lia.
Qed.

(** Rounding does not step over [C], a value every format at or below
    exponent 0 holds exactly. *)
Lemma round_ratio_le (n d C E : Z) :
  0 <= n -> 0 < d -> 0 <= E <= 52 -> 0 < C < 2 ^ (E + 1) -> n <= C * d ->
  let '(m, e) := round_ratio n d in
  0 <= m /\ e <= 0 /\ m <= C * 2 ^ (- e).
Proof.
  intros Hn Hd HE HC Hle. unfold round_ratio.
  destruct (Z.eqb_spec n 0) as [-> | Hn0].
  - simpl. lia.
  - assert (Hfl : floor_log2_ratio n d <= E)
      by (apply floor_log2_ratio_le; try lia; nia).
    assert (He : ulp_exp n d <= 0) by (unfold ulp_exp; lia).
    set (e := ulp_exp n d) in *.
    destruct (Z.leb_spec 0 e) as [H0 | H0].
    + assert (e = 0) by lia. replace e with 0 in * by lia.
      change (2 ^ 0) with 1. change (2 ^ (- 0)) with 1.
      rewrite Z.mul_1_r.
      split; [apply round_half_even_nonneg; lia |].
      split; [lia |].
      rewrite Z.mul_1_r. apply round_half_even_le; lia.
    + assert (Hp : 0 < 2 ^ (- e)) by (apply Z.pow_pos_nonneg; lia).
      split; [apply round_half_even_nonneg; nia |].
      split; [lia |].
      apply round_half_even_le; nia.
Qed.

Lemma not_too_large (m e C : Z) :
  e <= 0 -> 0 <= m <= C * 2 ^ (- e) -> C < 2 ^ 1024 -> too_large m e = false.
Proof.
  intros He Hm HC. unfold too_large.
  destruct (Z.leb_spec 0 e) as [H0 | H0]; [| reflexivity].
  assert (e = 0) by lia. subst e. simpl Z.opp in Hm.
  change (2 ^ 0) with 1 in *. cbn [andb].
  apply Z.leb_gt. lia.
Qed.

End NumFacts.

(** ** The percentage of a ratio *)

Lemma float_of_int_100 :
  Num.float_of_int 100 = Ok (Num.Finite (100 * 2 ^ 46) (- 46)).
Proof. vm_compute. reflexivity. Qed.

(** A ratio between 0 and 1 gives a percentage between 0 and 100, whatever
    the two roundings do. *)
Lemma percentage_of_valid_ratio (c m : Z) :
  0 <= c <= m -> 0 < m ->
  exists q, percentage c m = Ok q /\ 0 <= q <= 100.
Proof.
  intros Hc Hm. unfold percentage, Num.true_div.
  destruct (Z.eqb_spec m 0) as [? | _]; [lia |].
  rewrite (Z.abs_eq c), (Z.abs_eq m) by lia.
  pose proof (NumFacts.round_ratio_le c m 1 0) as H1.
  destruct (Num.round_ratio c m) as [m1 e1].
  destruct H1 as (Hm1 & He1 & Hb1); try lia.
  rewrite (NumFacts.not_too_large m1 e1 1); [| lia | lia | reflexivity].
  cbn [rbind]. rewrite float_of_int_100. cbn [rbind].
  set (v1 := Z.sgn c * Z.sgn m * m1).
  assert (Hv1 : 0 <= v1 <= 1 * 2 ^ (- e1)).
  { unfold v1. rewrite (Z.sgn_pos m) by lia.
    destruct (Z.eq_dec c 0) as [-> | Hne].
    - change (Z.sgn 0) with 0.
      assert (0 < 2 ^ (- e1)) by (apply Z.pow_pos_nonneg; lia). lia.
    - rewrite (Z.sgn_pos c) by lia. lia. }
  unfold Num.mul.
  destruct (Z.leb_spec 0 (e1 + - 46)) as [? | _]; [lia |].
  set (p := v1 * (100 * 2 ^ 46)).
  assert (Hp : 0 <= p <= 100 * 2 ^ (- (e1 + - 46))).
  { unfold p. replace (- (e1 + - 46)) with (- e1 + 46) by lia.
    rewrite Z.pow_add_r by lia.
    assert (0 < 2 ^ 46) by (apply Z.pow_pos_nonneg; lia).
    nia. }
  rewrite (Z.abs_eq p) by lia.
  pose proof (NumFacts.round_ratio_le p (2 ^ (- (e1 + - 46))) 100 6) as H2.
  destruct (Num.round_ratio p (2 ^ (- (e1 + - 46)))) as [m2 e2].
  destruct H2 as (Hm2 & He2 & Hb2);
    try lia; try (apply Z.pow_pos_nonneg; lia).
  rewrite (NumFacts.not_too_large m2 e2 100); [| lia | lia | reflexivity].
  unfold Num.int_of_float.
  set (v2 := Z.sgn p * m2).
  assert (Hv2 : 0 <= v2 <= 100 * 2 ^ (- e2)).
  { unfold v2. destruct (Z.eq_dec p 0) as [-> | Hne].
    - change (Z.sgn 0) with 0.
      assert (0 < 2 ^ (- e2)) by (apply Z.pow_pos_nonneg; lia). lia.
    - rewrite (Z.sgn_pos p) by lia. lia. }
  eexists. split; [reflexivity |].
  destruct (Z.leb_spec 0 e2) as [H0 | H0].
  - assert (e2 = 0) by lia. subst e2. change (2 ^ 0) with 1.
    change (2 ^ (- 0)) with 1 in Hv2. lia.
  - assert (Hpow : 0 < 2 ^ (- e2)) by (apply Z.pow_pos_nonneg; lia).
    rewrite Z.quot_div_nonneg by lia.
    split; [apply Z.div_pos; lia |].
    apply Z.div_le_upper_bound; lia.
Qed.

(** ** Strings *)

Module PyFacts.
Import Py.

Lemma split_aux_nonempty (sep : string) (s : string) :
  forall k cur, split_aux sep k cur s <> [].
Proof.
  induction s as [| c s IH]; intros k cur; simpl.
  - discriminate.
  - destruct k; [destruct (startswith sep (String c s)) |]; try discriminate; apply IH.
Qed.

(** A separator that occurs splits off a second piece. *)
Lemma split_contains (sep s : string) :
  sep <> EmptyString -> contains sep s = true ->
  exists a b rest, split sep s = a :: b :: rest.
Proof.
  intros Hsep. unfold split. generalize EmptyString as cur.
  induction s as [| c s IH]; intros cur H.
  - destruct sep; [congruence | discriminate].
  - cbn [split_aux].
    destruct (startswith sep (String c s)) eqn:Hp.
    + destruct (split_aux sep (Nat.pred (String.length sep)) "" s) as [| b rest] eqn:Hs.
      * exfalso. exact (split_aux_nonempty _ _ _ _ Hs).
      * eauto.
    + apply IH. cbn [contains] in H. rewrite Hp in H. exact H.
Qed.

Lemma index_split_contains (sep s : string) :
  sep <> EmptyString -> contains sep s = true ->
  exists b, index (split sep s) 1 = Ok b.
Proof.
  intros Hsep H. destruct (split_contains sep s Hsep H) as (a & b & rest & E).
  rewrite E. exists b. reflexivity.
Qed.

End PyFacts.

(** ** The quality field *)

Lemma quality_operands_raises (line : string) (e : exn) :
  quality_operands line = Raise e -> e = IndexError \/ e = ValueError.
Proof.
  unfold quality_operands, quality_part, Py.index, Py.unpack2, Num.int_of_string.
  repeat match goal with
         | |- context [match ?x with _ => _ end] => destruct x; cbn [rbind]
         end;
    intros H; inversion H; auto.
Qed.

(** A quality line with a valid ratio, or with none, never makes the loop
    fail, and what it stores is a percentage. *)
Lemma quality_field_ok (raw : string) :
  classify (Py.strip raw) = QualityLine -> ratio_ok raw = true ->
  exists q, quality_field (Py.strip raw) = Ok q
            /\ match q with Some v => 0 <= v <= 100 | None => True end.
Proof.
  intros Hk Hr. unfold ratio_ok in Hr. cbv zeta in Hr. rewrite Hk in Hr.
  unfold quality_field, quality_try.
  destruct (quality_operands (Py.strip raw)) as [[[c m] |] | e] eqn:Hops; cbn [rbind].
  - unfold valid_ratio in Hr.
    apply andb_true_iff in Hr as [Hr Hm]. apply andb_true_iff in Hr as [Hc Hcm].
    apply Z.leb_le in Hc, Hcm. apply Z.ltb_lt in Hm.
    destruct (percentage_of_valid_ratio c m) as (q & Hq & Hrange); [lia | lia |].
    rewrite Hq. cbn [rbind]. exists (Some q). split; [reflexivity | exact Hrange].
  - exists None. split; [reflexivity | exact I].
  - destruct (quality_operands_raises _ _ Hops) as [-> | ->];
      exists None; split; (reflexivity || exact I).
Qed.

(** ** The loop over the lines of a scan *)

Lemma classify_quality (line : string) :
  is_cell line = false -> Py.contains "ESSID:" line = false ->
  Py.contains "Quality=" line = true -> classify line = QualityLine.
Proof. intros H1 H2 H3. unfold classify. rewrite H1, H2, H3. reflexivity. Qed.

Lemma quality_in_range_set (v : Z) (n : network) :
  0 <= v <= 100 -> quality_in_range (set_quality v n).
Proof. intros H. exact H. Qed.

(** Every stored quality is a percentage, as long as every ratio read is
    valid. *)
Lemma scan_line_quality_range (st st' : list network * network) (raw : string) :
  ratio_ok raw = true -> scan_line st raw = Ok st' ->
  Forall quality_in_range (fst st) -> quality_in_range (snd st) ->
  Forall quality_in_range (fst st') /\ quality_in_range (snd st').
Proof.
  destruct st as [nets cur]. intros Hr Hs Hn Hc. cbn [fst snd] in *.
  unfold scan_line in Hs. cbv zeta in Hs.
  destruct (is_cell (Py.strip raw)) eqn:Hcell.
  - destruct (Py.index (Py.split "Address: " (Py.strip raw)) 1) as [addr |];
      cbn [rbind] in Hs; [| discriminate].
    injection Hs as <-. cbn [fst snd]. split; [| exact I].
    destruct (network_nonempty cur); [| exact Hn].
    apply Forall_app. split; [exact Hn | constructor; [exact Hc | constructor]].
  - destruct (Py.contains "ESSID:" (Py.strip raw)) eqn:Hessid.
    + destruct (Py.index (Py.split "ESSID:" (Py.strip raw)) 1) as [rest |];
        cbn [rbind] in Hs; [| discriminate].
      injection Hs as <-. cbn [fst snd]. split; [exact Hn |].
      destruct (Py.strip_chars Py.dquote rest); exact Hc.
    + destruct (Py.contains "Quality=" (Py.strip raw)) eqn:Hq.
      * destruct (quality_field_ok raw (classify_quality _ Hcell Hessid Hq) Hr)
          as (q & Eq & Hrange).
        rewrite Eq in Hs. cbn [rbind] in Hs. injection Hs as <-. cbn [fst snd].
        split; [exact Hn |].
        destruct q; [apply quality_in_range_set; exact Hrange | exact Hc].
      * destruct (Py.contains "Encryption key:" (Py.strip raw));
          injection Hs as <-; cbn [fst snd]; split; (exact Hn || exact Hc).
Qed.

Lemma scan_lines_quality_range (lines : list string) :
  forall st st',
    forallb ratio_ok lines = true -> scan_lines st lines = Ok st' ->
    Forall quality_in_range (fst st) -> quality_in_range (snd st) ->
    Forall quality_in_range (fst st') /\ quality_in_range (snd st').
Proof.
  induction lines as [| raw rest IH]; intros st st' Hr Hs Hn Hc.
  - injection Hs as <-. split; assumption.
  - cbn [forallb] in Hr. apply andb_true_iff in Hr as [Hr1 Hr2].
    cbn [scan_lines] in Hs.
    destruct (scan_line st raw) as [st1 |] eqn:H1; cbn [rbind] in Hs; [| discriminate].
    destruct (scan_line_quality_range _ _ _ Hr1 H1 Hn Hc) as [Hn1 Hc1].
    exact (IH _ _ Hr2 Hs Hn1 Hc1).
Qed.









(** ** The sort *)

Lemma insert_desc_perm (x : network) (l : list network) :
  Permutation (x :: l) (insert_desc x l).
Proof.
  induction l as [| y l IH]; cbn [insert_desc]; [reflexivity |].
  destruct (sort_key y <=? sort_key x); [reflexivity |].
  rewrite perm_swap. constructor. exact IH.
Qed.

Lemma sort_desc_perm (l : list network) : Permutation l (sort_desc l).
Proof.
  induction l as [| x l IH]; cbn [sort_desc]; [constructor |].
  rewrite <- insert_desc_perm. constructor. exact IH.
Qed.






(** ** [scan_networks] as a call *)


Lemma scan_networks_result (w : world) (s : wifi) (nets : list network) :
  returned (call scan_networks w s) = Ok nets ->
  nets = [] \/ parse_scan (scan_output w) = Ok nets.
Proof.
  unfold returned, scan_output, call, scan_networks, try, bind, subprocess_run,
    subprocess_run_at, sleep, emit, ask, lift, ret, raise.
  cbn.
  destruct (w_proc w IwlistScan 0) as [rc0 out0 err0 | e0]; cbn.
  - destruct (w_proc w IwlistScan 1) as [rc out err | e1]; cbn.
    + destruct (parse_scan out) as [l |]; cbn; intros H; injection H as <-; auto.
    + intros H; injection H as <-; auto.
  - intros H; injection H as <-; auto.
Qed.

(** C6 at a network whose name holds the two words of a cell line: the
    text has one well-formed stanza, but its [ESSID] line passes the test
    ['Cell' in line and 'Address:' in line], which the loop makes first,
    and is taken for the marker of a second cell.  [scan_networks] returns
    two records: the real one without its name, and one whose address is
    the tail of the name. *)
Theorem scan_networks_cell_in_essid :
  well_formed Examples.scan_cell_in_essid = true
  /\ stanzas Examples.scan_cell_in_essid = 1%nat
  /\ call scan_networks (Examples.scanning Examples.scan_cell_in_essid)
                        (init Examples.cfg)
     = (Ok [ {| net_bssid := Some "AA:BB:CC:DD:EE:01"; net_ssid := None;
                net_quality := Some 100; net_encrypted := Some true |};
             {| net_bssid := Some ("x" ++ Py.dquote); net_ssid := None;
                net_quality := None; net_encrypted := None |} ],
        init Examples.cfg, [Run IwlistScan; Sleep 2; Run IwlistScan]).
Proof. repeat split; vm_compute; reflexivity. Qed.

(** C7, as the code has it: when every ratio read from the scan text is a
    fraction [current/max] with [0 <= current <= max] and [0 < max], every
    quality present in a record returned by [scan_networks] is an integer
    between 0 and 100.  (No clamping is done for other ratios.) *)
Theorem scan_networks_quality_percentage (w : world) (s : wifi) (nets : list network) :
  forallb ratio_ok (scan_text_lines (scan_output w)) = true ->
  returned (call scan_networks w s) = Ok nets ->
  Forall quality_in_range nets.
Proof.
  intros Hr Hret.
  destruct (scan_networks_result w s nets Hret) as [-> | Hp]; [constructor |].
  unfold parse_scan, collect_networks in Hp.
  fold (scan_text_lines (scan_output w)) in Hp.
  destruct (scan_lines ([], empty_network) (scan_text_lines (scan_output w)))
    as [[networks cur] |] eqn:Hs; cbn [rbind] in Hp; [| discriminate].
  injection Hp as <-.
  destruct (scan_lines_quality_range _ _ _ Hr Hs) as [Hn Hc];
    [constructor | exact I |].
  cbn [fst snd] in Hn, Hc.
  eapply Permutation_Forall; [apply sort_desc_perm |].
  destruct (network_nonempty cur); [| exact Hn].
  apply Forall_app. split; [exact Hn | constructor; [exact Hc | constructor]].
Qed.

Lemma scan_networks_quality_percentage_witness :
  exists nets,
    returned (call scan_networks (Examples.scanning Examples.scan_four)
                                 (init Examples.cfg)) = Ok nets
    /\ List.length nets = 4%nat
    /\ Forall quality_in_range nets.
Proof.
  eexists. split; [vm_compute; reflexivity |]. split; [reflexivity |].
  apply (scan_networks_quality_percentage
           (Examples.scanning Examples.scan_four) (init Examples.cfg)).
  - vm_compute. reflexivity.
  - vm_compute. reflexivity.
Defined.

(** C7 as stated fails: a ratio above its maximum is stored as it comes
    out, here 114. *)
Lemma scan_networks_quality_above_100 :
  exists n,
    returned (call scan_networks (Examples.scanning Examples.scan_over_max)
                                 (init Examples.cfg)) = Ok [n]
    /\ net_quality n = Some 114
    /\ ~ (0 <= 114 <= 100).
Proof.
  eexists. split; [vm_compute; reflexivity |].
  split; [reflexivity | lia].
Qed.

(** C5 at a ratio with a zero maximum: the division raises
    [ZeroDivisionError], which the handler of the quality branch does not
    name, and the handler of the method turns the whole scan into the
    empty list, the second stanza included. *)
Theorem scan_networks_zero_maximum :
  quality_field "Quality=0/0  Signal level=-65 dBm" = Raise ZeroDivisionError
  /\ parse_scan Examples.scan_zero_max = Raise ZeroDivisionError
  /\ call scan_networks (Examples.scanning Examples.scan_zero_max) (init Examples.cfg)
     = (Ok [], init Examples.cfg, [Run IwlistScan; Sleep 2; Run IwlistScan]).
Proof. repeat split; vm_compute; reflexivity. Qed.

(** ** [stop_hotspot] *)

Ltac run_method :=
  unfold try, bind, subprocess_run, subprocess_run_at, sleep, modify, emit,
    ask, get, lift, ret, raise; cbn.

Ltac case_outcome :=
  match goal with
  | |- context [w_proc ?w ?c ?n] =>
      let e := fresh "e" in
      destruct (w_proc w c n) as [? ? ? | e]; [| destruct e]; cbn
  | |- context [?a =? 0] => destruct (a =? 0); cbn
  end.

(** The method at any point of a call: its calls, and what it does to the
    state. *)
Lemma stop_hotspot_spec (w : world) (m : machine) :
  (exists evs, calls (snd (stop_hotspot w m)) = (calls m ++ evs)%list
               /\ forallb hotspot_event evs = true)
  /\ match fst (stop_hotspot w m) with
     | Ok _ => self (snd (stop_hotspot w m)) = clear_hotspot (self m)
     | Raise e =>
         stop_handled e = false
         /\ (self (snd (stop_hotspot w m)) = self m
             \/ self (snd (stop_hotspot w m)) = clear_hotspot (self m))
     end.
Proof.
  unfold stop_hotspot. run_method.
  repeat case_outcome;
    (split;
     [ eexists; split; [rewrite <- ?app_assoc; reflexivity | reflexivity]
     | auto ]).
Qed.


(** It does return for the outcomes the method expects: exit with any
    status, time limit passed, executable missing. *)
Lemma stop_hotspot_returns (w : world) (s : wifi) :
  (forall c n, benign (w_proc w c n) = true) ->
  exists b, returned (call stop_hotspot w s) = Ok b.
Proof.
  intros Hb. unfold returned, call, stop_hotspot. run_method.
  repeat match goal with
         | |- context [w_proc ?w ?c ?n] =>
             let H := fresh "H" in
             let e := fresh "e" in
             pose proof (Hb c n) as H;
             destruct (w_proc w c n) as [? ? ? | e]; [| destruct e];
             cbn in H; try discriminate H; clear H; cbn
         | |- context [?a =? 0] => destruct (a =? 0); cbn
         end;
    eexists; reflexivity.
Qed.

(** C8, as the code has it: when the helper script reports failure on
    stop, the three manual commands are issued in order, each only if all
    the earlier ones exited with status 0; when the first failure is a
    non-zero exit (or a time limit, or a missing executable) the rest are
    skipped; in every such case the call reports false with the hotspot
    flag cleared. *)
Theorem stop_hotspot_manual_fallback
    (w : world) (s : wifi) (rc : Z) (out err : string) :
  w_proc w HotspotStop 0 = Exited rc out err ->
  rc <> 0 ->
  forallb (fun c => benign (w_proc w c 0)) manual_commands = true ->
  call stop_hotspot w s
  = (Ok false, clear_hotspot s, Run HotspotStop :: map Run (issued w manual_commands)).
Proof.
  intros Hh Hrc Hb. cbn [forallb manual_commands] in Hb.
  apply andb_true_iff in Hb as [H1 Hb]. apply andb_true_iff in Hb as [H2 Hb].
  apply andb_true_iff in Hb as [H3 _].
  apply Z.eqb_neq in Hrc.
  unfold call, stop_hotspot. run_method. rewrite Hh. cbn. rewrite Hrc. cbn.
  destruct (w_proc w StopHostapd 0) as [r1 ? ? | e1];
    [destruct (Z.eqb_spec r1 0) as [-> | N1]; cbn
    | destruct e1; try discriminate H1; reflexivity].
  2:{ destruct r1; try reflexivity; contradiction. }
  destruct (w_proc w StopDnsmasq 0) as [r2 ? ? | e2];
    [destruct (Z.eqb_spec r2 0) as [-> | N2]; cbn
    | destruct e2; try discriminate H2; reflexivity].
  2:{ destruct r2; try reflexivity; contradiction. }
  destruct (w_proc w FlushWlan0 0) as [r3 ? ? | e3];
    [destruct (Z.eqb_spec r3 0) as [-> | N3]; cbn
    | destruct e3; try discriminate H3; reflexivity].
  - reflexivity.
  - destruct r3; try reflexivity; contradiction.
Qed.

Lemma stop_hotspot_manual_fallback_witness :
  call stop_hotspot Examples.helper_and_hostapd_fail Examples.in_hotspot
  = (Ok false, clear_hotspot Examples.in_hotspot,
     Run HotspotStop
       :: map Run (issued Examples.helper_and_hostapd_fail manual_commands)).
Proof.
  apply (stop_hotspot_manual_fallback
           Examples.helper_and_hostapd_fail Examples.in_hotspot
           1 "" "hostapd: no such process").
  - reflexivity.
  - discriminate.
  - reflexivity.
Defined.

(** C8 as stated fails: after the stop of the access-point service has
    failed, the other two commands are not issued. *)
Lemma stop_hotspot_skips_after_failure :
  calls_made (call stop_hotspot Examples.helper_and_hostapd_fail Examples.in_hotspot)
  = [Run HotspotStop; Run StopHostapd]
  /\ ~ In (Run StopDnsmasq)
        (calls_made (call stop_hotspot Examples.helper_and_hostapd_fail
                                       Examples.in_hotspot))
  /\ ~ In (Run FlushWlan0)
        (calls_made (call stop_hotspot Examples.helper_and_hostapd_fail
                                       Examples.in_hotspot)).
Proof.
  split; [reflexivity |].
  split; intros [H | [H | []]]; discriminate H.
Qed.

(** C9 at a restart of [dhcpcd] that runs into its time limit: the helper
    script has succeeded and the flag is cleared, yet the exception lands
    in the handler of the method, which reports failure. *)
Theorem stop_hotspot_dhcpcd_timeout :
  w_proc Examples.dhcpcd_hangs HotspotStop 0 = Exited 0 "" ""
  /\ call stop_hotspot Examples.dhcpcd_hangs Examples.in_hotspot
     = (Ok false, clear_hotspot Examples.in_hotspot,
        [Run HotspotStop; Run RestartDhcpcd]).
Proof. split; reflexivity. Qed.

(** ** [_update_wpa_supplicant] *)

(** C4 at a file whose second block sets [scan_ssid] before [ssid]: the
    rewrite for a third network succeeds, and the block of ["Cafe"] is
    written back without its first line, since the assignment at the
    [ssid=] line starts [current_block] afresh.  Likewise the block of a
    network whose name holds ['='] is not recognised as the block of the
    target, and the file ends up with two blocks for it. *)
Theorem update_wpa_supplicant_loses_lines :
  call (_update_wpa_supplicant "Office" "officepass")
       (Examples.configured (Examples.file Examples.conf_two_blocks))
       (init Examples.cfg)
  = (Ok true, init Examples.cfg,
     [ConfRead; ConfWrite (Examples.file Examples.conf_two_blocks_rewritten);
      Run ChmodConf])
  /\ In "    scan_ssid=1" Examples.conf_two_blocks
  /\ ~ In "    scan_ssid=1" Examples.conf_two_blocks_rewritten
  /\ calls_made (call (_update_wpa_supplicant "Wi=Fi" "pass")
                      Examples.fresh (init Examples.cfg))
     = [ConfRead; ConfWrite (Examples.file Examples.conf_wi_fi); Run ChmodConf]
  /\ calls_made (call (_update_wpa_supplicant "Wi=Fi" "pass")
                      (Examples.configured (Examples.file Examples.conf_wi_fi))
                      (init Examples.cfg))
     = [ConfRead;
        ConfWrite (Examples.file (Examples.conf_wi_fi ++ Examples.conf_wi_fi)%list);
        Run ChmodConf].
Proof.
  split; [vm_compute; reflexivity |].
  split; [cbn; tauto |].
  split.
  { intros H. cbn in H.
    repeat (destruct H as [H | H]; [discriminate H |]). exact H. }
  split; vm_compute; reflexivity.
Qed.

(** ** Counting calls *)

Lemma command_eqb_eq (a b : command) : command_eqb a b = true -> a = b.
Proof.
  destruct a, b; cbn; try discriminate; try reflexivity.
  intros H. apply andb_true_iff in H as [H Hc]. apply andb_true_iff in H as [Hs Hp].
  apply String.eqb_eq in Hs, Hp. apply Z.eqb_eq in Hc. congruence.
Qed.

Lemma runs_of_app (c : command) (l l' : list event) :
  runs_of c (l ++ l') = (runs_of c l + runs_of c l')%nat.
Proof.
  induction l as [| e l IH]; [reflexivity |].
  cbn [app runs_of]. destruct e; try exact IH.
  destruct (command_eqb c c0); [rewrite IH; reflexivity | exact IH].
Qed.

Lemma sleeps_of_app (n : nat) (l l' : list event) :
  sleeps_of n (l ++ l') = (sleeps_of n l + sleeps_of n l')%nat.
Proof.
  induction l as [| e l IH]; [reflexivity |].
  cbn [app sleeps_of]. destruct e; try exact IH.
  destruct (Nat.eqb seconds n); [rewrite IH; reflexivity | exact IH].
Qed.

(** Calls of one class do not count for a command outside it. *)
Lemma runs_of_outside (p : event -> bool) (c : command) (l : list event) :
  forallb p l = true -> p (Run c) = false -> runs_of c l = O.
Proof.
  intros Hl Hc. induction l as [| e l IH]; [reflexivity |].
  cbn [forallb] in Hl. apply andb_true_iff in Hl as [He Hl].
  cbn [runs_of]. destruct e; try exact (IH Hl).
  destruct (command_eqb c c0) eqn:E; [| exact (IH Hl)].
  apply command_eqb_eq in E. subst c0. congruence.
Qed.

Lemma not_in_outside (p : event -> bool) (e : event) (l : list event) :
  forallb p l = true -> p e = false -> ~ In e l.
Proof.
  intros Hl He Hin. rewrite forallb_forall in Hl.
  specialize (Hl e Hin). congruence.
Qed.

Lemma sleeps_of_outside (p : event -> bool) (n : nat) (l : list event) :
  forallb p l = true -> p (Sleep n) = false -> sleeps_of n l = O.
Proof.
  intros Hl Hc. induction l as [| e l IH]; [reflexivity |].
  cbn [forallb] in Hl. apply andb_true_iff in Hl as [He Hl].
  cbn [sleeps_of]. destruct e; try exact (IH Hl).
  destruct (Nat.eqb_spec seconds n) as [-> | _]; [congruence | exact (IH Hl)].
Qed.

(** ** The link probe *)

Ltac case_probe :=
  match goal with
  | |- context [w_proc ?w ?c ?n] =>
      let e := fresh "e" in
      destruct (w_proc w c n) as [? ? ? | e]; [| destruct e]; cbn
  | |- context [w_interfaces ?w ?n] =>
      let e := fresh "e" in
      destruct (w_interfaces w n) as [? | e]; [| destruct e]; cbn
  | |- context [w_ifaddresses ?w ?n] =>
      let e := fresh "e" in
      destruct (w_ifaddresses w n) as [[? |] | e]; [| | destruct e]; cbn
  | |- context [existsb ?f ?l] => destruct (existsb f l); cbn
  | |- context [first_addr ?l] =>
      let e := fresh "e" in
      destruct (first_addr l) as [? | e]; [| destruct e]; cbn
  | |- context [signal_of ?o] =>
      let e := fresh "e" in
      destruct (signal_of o) as [? | e]; [| destruct e]; cbn
  end.

(** A probe always returns: its report, the state untouched, and after
    [iwgetid] only calls of its own. *)
Lemma probe_link_spec (k : nat) (w : world) (m : machine) :
  exists evs,
    probe_link k w m
    = (Ok (probe_report w k),
       {| self := self m; calls := (calls m ++ Run Iwgetid :: evs)%list |})
    /\ forallb probe_tail_event evs = true.
Proof.
  unfold probe_report, probe_link, blank. run_method.
  repeat case_probe;
    eexists; (split; [rewrite <- ?app_assoc; reflexivity | reflexivity]).
Qed.

Lemma get_current_network_info_spec (w : world) (m : machine) :
  exists evs,
    get_current_network_info w m
    = (Ok (probe_report w (runs_of Iwgetid (calls m))),
       {| self := self m; calls := (calls m ++ evs)%list |})
    /\ runs_of Iwgetid evs = 1%nat
    /\ sleeps_of 1 evs = O.
Proof.
  unfold get_current_network_info.
  destruct (probe_link_spec (runs_of Iwgetid (calls m)) w m) as (evs & E & Hc).
  exists (Run Iwgetid :: evs). split; [exact E |].
  cbn [runs_of sleeps_of command_eqb].
  rewrite (runs_of_outside probe_tail_event Iwgetid evs Hc eq_refl).
  rewrite (sleeps_of_outside probe_tail_event 1 evs Hc eq_refl).
  split; reflexivity.
Qed.

(** ** The rewrite of the configuration as a call *)

Lemma update_wpa_supplicant_spec (target pass : string) (w : world) (m : machine) :
  exists b evs,
    _update_wpa_supplicant target pass w m
    = (Ok b, {| self := self m; calls := (calls m ++ evs)%list |})
    /\ forallb conf_event evs = true.
Proof.
  unfold _update_wpa_supplicant. run_method.
  destruct (w_conf w) as [existing | e]; cbn.
  - destruct (rewrite_config target pass
                (match existing with Some text => readlines text | None => [] end))
      as [lines | e]; cbn.
    + destruct (w_write w) as [e |]; cbn.
      * eexists _, _. split; [rewrite <- ?app_assoc; reflexivity | reflexivity].
      * destruct (w_proc w ChmodConf _) as [? ? ? | e]; cbn;
          eexists _, _; (split; [rewrite <- ?app_assoc; reflexivity | reflexivity]).
    + eexists _, _. split; [rewrite <- ?app_assoc; reflexivity | reflexivity].
  - eexists _, _. split; [rewrite <- ?app_assoc; reflexivity | reflexivity].
Qed.

(** ** The polling loop *)

(** One turn of the loop. *)
Lemma wait_for_connection_step (target pass : string) (w : world) (n : nat) (m : machine) :
  wait_for_connection (S n) target pass w m
  = match get_current_network_info w
            {| self := self m; calls := (calls m ++ [Sleep 1])%list |} with
    | (Ok info, m') =>
        if info_connected info && option_string_eqb (info_ssid info) target
        then (Ok true,
              {| self := enter_client target pass (info_ip_address info) (self m');
                 calls := calls m' |})
        else wait_for_connection n target pass w m'
    | (Raise e, m') => (Raise e, m')
    end.
Proof.
  cbn [wait_for_connection]. unfold bind, sleep, emit, modify, ret. cbn.
  destruct (get_current_network_info w _) as [[info | e] m']; [| reflexivity].
  destruct (info_connected info && option_string_eqb (info_ssid info) target);
    reflexivity.
Qed.

Lemma first_match_from (w : world) (target : string) (n : nat) :
  forall from k, first_match w target from n = Some k -> (from <= k)%nat.
Proof.
  induction n as [| n IH]; intros from k H; [discriminate |].
  cbn [first_match] in H. destruct (link_matches w target from).
  - injection H as <-. lia.
  - specialize (IH _ _ H). lia.
Qed.

Lemma wait_for_connection_spec (target pass : string) (w : world) (n : nat) :
  forall m,
    (exists evs, calls (snd (wait_for_connection n target pass w m))
                 = (calls m ++ evs)%list)
    /\ match first_match w target (runs_of Iwgetid (calls m)) n with
       | Some k =>
           fst (wait_for_connection n target pass w m) = Ok true
           /\ self (snd (wait_for_connection n target pass w m))
              = enter_client target pass (info_ip_address (probe_report w k)) (self m)
           /\ runs_of Iwgetid (calls (snd (wait_for_connection n target pass w m))) = S k
           /\ sleeps_of 1 (calls (snd (wait_for_connection n target pass w m)))
              = (sleeps_of 1 (calls m) + (S k - runs_of Iwgetid (calls m)))%nat
       | None =>
           fst (wait_for_connection n target pass w m) = Ok false
           /\ self (snd (wait_for_connection n target pass w m)) = self m
           /\ runs_of Iwgetid (calls (snd (wait_for_connection n target pass w m)))
              = (runs_of Iwgetid (calls m) + n)%nat
           /\ sleeps_of 1 (calls (snd (wait_for_connection n target pass w m)))
              = (sleeps_of 1 (calls m) + n)%nat
       end.
Proof.
  induction n as [| n IH]; intros m.
  - cbn. split; [exists []; rewrite app_nil_r; reflexivity |].
    repeat split; lia.
  - rewrite wait_for_connection_step. cbn [first_match].
    set (m1 := {| self := self m; calls := (calls m ++ [Sleep 1])%list |}).
    destruct (get_current_network_info_spec w m1) as (evs & E & Hruns & Hsl).
    rewrite E.
    assert (Hk : runs_of Iwgetid (calls m1) = runs_of Iwgetid (calls m)).
    { unfold m1. cbn [calls]. rewrite runs_of_app. cbn. lia. }
    rewrite Hk.
    change (info_connected (probe_report w (runs_of Iwgetid (calls m)))
            && option_string_eqb
                 (info_ssid (probe_report w (runs_of Iwgetid (calls m)))) target)
      with (link_matches w target (runs_of Iwgetid (calls m))).
    set (m2 := {| self := self m1; calls := (calls m1 ++ evs)%list |}).
    assert (Hc2 : calls m2 = (calls m ++ Sleep 1 :: evs)%list).
    { unfold m2, m1. cbn [calls]. rewrite <- app_assoc. reflexivity. }
    assert (Hr2 : runs_of Iwgetid (calls m2) = S (runs_of Iwgetid (calls m))).
    { rewrite Hc2, runs_of_app. cbn [runs_of]. rewrite Hruns. lia. }
    assert (Hs2 : sleeps_of 1 (calls m2) = S (sleeps_of 1 (calls m))).
    { rewrite Hc2, sleeps_of_app. cbn [sleeps_of Nat.eqb]. rewrite Hsl. lia. }
    destruct (link_matches w target (runs_of Iwgetid (calls m))) eqn:Hmatch.
    + cbn [fst snd self calls].
      split; [eexists; exact Hc2 |].
      rewrite Hr2, Hs2. repeat split; lia.
    + destruct (IH m2) as [(evs' & Hev) IH2]. rewrite Hr2 in IH2.
      split.
      { exists (Sleep 1 :: evs ++ evs')%list. rewrite Hev, Hc2.
        rewrite <- app_assoc. reflexivity. }
      destruct (first_match w target (S (runs_of Iwgetid (calls m))) n) as [k |] eqn:Hf.
      * destruct IH2 as (R1 & R2 & R3 & R4).
        pose proof (first_match_from _ _ _ _ _ Hf) as Hle.
        repeat split; try assumption. rewrite R4, Hs2. lia.
      * destruct IH2 as (R1 & R2 & R3 & R4).
        repeat split; try assumption; lia.
Qed.

(** ** [connect_to_network] *)

Lemma bind_eq {A B} (m : M A) (k : A -> M B) w st :
  bind m k w st = match m w st with (Ok a, st') => k a w st' | (Raise e, st') => (Raise e, st') end.
Proof. reflexivity. Qed.

Lemma subprocess_run_eq c t chk w m :
  subprocess_run c t chk w m
  = (match w_proc w c (runs_of c (calls m)) with
     | Exited rc out err =>
         if chk && negb (rc =? 0) then Raise CalledProcessError
         else Ok {| returncode := rc; stdout := out; stderr := err |}
     | Failed e => Raise e
     end,
     {| self := self m; calls := (calls m ++ [Run c])%list |}).
Proof.
  unfold subprocess_run, subprocess_run_at, bind, emit, ask, ret, raise. cbn.
  destruct (w_proc w c (runs_of c (calls m))) as [rc out err | e]; [| reflexivity].
  destruct (chk && negb (rc =? 0)); reflexivity.
Qed.

Lemma connect_steps_spec target pass w m :
  runs_of RestartWpaSupplicant (calls m) = O ->
  runs_of WpaReconfigure (calls m) = O ->
  runs_of Iwgetid (calls m) = O ->
  sleeps_of 1 (calls m) = O ->
  ~ In (Run RestartWpaSupplicant) (calls m) ->
  let r := connect_steps target pass w m in
  (self (snd r) = self m
   /\ (fst r = Ok false \/ exists e, fst r = Raise e)
   /\ (~ In (Run RestartWpaSupplicant) (calls (snd r)) \/ daemons_launch w = false))
  \/ (In (Run RestartWpaSupplicant) (calls (snd r)) /\ daemons_launch w = true
      /\ match first_match w target 0 30 with
         | Some k =>
             fst r = Ok true
             /\ self (snd r)
                = enter_client target pass (info_ip_address (probe_report w k)) (self m)
             /\ runs_of Iwgetid (calls (snd r)) = S k
             /\ sleeps_of 1 (calls (snd r)) = S k
         | None =>
             fst r = Ok false /\ self (snd r) = self m
             /\ runs_of Iwgetid (calls (snd r)) = 30%nat
             /\ sleeps_of 1 (calls (snd r)) = 30%nat
         end).
Proof.
  intros H1 H2 H3 H4 H5. cbv zeta.
  remember (connect_steps target pass w m) as r eqn:Hr.
  unfold connect_steps in Hr. rewrite bind_eq in Hr.
  destruct (update_wpa_supplicant_spec target pass w m) as (b & evs & E & Hc).
  rewrite E in Hr. destruct b; cbn [negb] in Hr.
  2:{ subst r. left. cbn [ret fst snd self calls]. split; [reflexivity |].
      split; [left; reflexivity |]. left.
      intros Hin. apply in_app_or in Hin as [Hin | Hin]; [exact (H5 Hin) |].
      exact (not_in_outside conf_event (Run RestartWpaSupplicant) _ Hc eq_refl Hin). }
  set (m2 := {| self := self m; calls := (calls m ++ evs)%list |}) in Hr.
  rewrite bind_eq, subprocess_run_eq in Hr.
  assert (R2 : runs_of RestartWpaSupplicant (calls m2) = O).
  { unfold m2. cbn [calls]. rewrite runs_of_app, H1.
    rewrite (runs_of_outside conf_event RestartWpaSupplicant _ Hc eq_refl). reflexivity. }
  rewrite R2 in Hr. unfold daemons_launch.
  destruct (w_proc w RestartWpaSupplicant 0) as [rc1 o1 e1 | x1]; cbn [andb] in Hr.
  2:{ subst r. left. cbn [fst snd self calls]. split; [reflexivity |].
      split; [right; eexists; reflexivity | right; reflexivity]. }
  rewrite bind_eq in Hr. unfold sleep, emit in Hr. cbn [self calls] in Hr.
  rewrite bind_eq, subprocess_run_eq in Hr. cbn [self calls] in Hr.
  assert (R3 : runs_of WpaReconfigure
                 ((calls m2 ++ [Run RestartWpaSupplicant]) ++ [Sleep 2])%list = O).
  { unfold m2. cbn [calls]. rewrite !runs_of_app, H2.
    rewrite (runs_of_outside conf_event WpaReconfigure _ Hc eq_refl). reflexivity. }
  rewrite R3 in Hr.
  destruct (w_proc w WpaReconfigure 0) as [rc2 o2 e2 | x2]; cbn [andb] in Hr.
  2:{ subst r. left. cbn [fst snd self calls]. split; [reflexivity |].
      split; [right; eexists; reflexivity | right; reflexivity]. }
  set (m4 := {| self := self m2;
                calls := (((calls m2 ++ [Run RestartWpaSupplicant]) ++ [Sleep 2])
                          ++ [Run WpaReconfigure])%list |}) in Hr.
  assert (R4 : runs_of Iwgetid (calls m4) = O).
  { unfold m4, m2. cbn [calls]. rewrite !runs_of_app, H3.
    rewrite (runs_of_outside conf_event Iwgetid _ Hc eq_refl). reflexivity. }
  assert (S4 : sleeps_of 1 (calls m4) = O).
  { unfold m4, m2. cbn [calls]. rewrite !sleeps_of_app, H4.
    rewrite (sleeps_of_outside conf_event 1 _ Hc eq_refl). reflexivity. }
  assert (I4 : In (Run RestartWpaSupplicant) (calls m4)).
  { unfold m4. cbn [calls]. rewrite !in_app_iff. cbn. tauto. }
  right. subst r.
  destruct (wait_for_connection_spec target pass w 30 m4) as [(evs' & Hev) Hw].
  rewrite R4, S4 in Hw.
  split; [rewrite Hev; apply in_or_app; left; exact I4 |].
  split; [reflexivity |].
  destruct (first_match w target 0 30) as [k |].
  - destruct Hw as (W1 & W2 & W3 & W4). repeat split; assumption.
  - destruct Hw as (W1 & W2 & W3 & W4). repeat split; assumption.
Qed.

Lemma try_eq {A} (m : M A) cls h w st :
  try m cls h w st
  = match m w st with
    | (Raise e, st') => if cls e then h w st' else (Raise e, st')
    | r => r
    end.
Proof. reflexivity. Qed.

Lemma clear_hotspot_inactive (s : wifi) : hotspot_active s = false -> clear_hotspot s = s.
Proof. destruct s; cbn; intros ->; reflexivity. Qed.

Lemma enter_client_clear target pass ip s :
  enter_client target pass ip (clear_hotspot s) = enter_client target pass ip s.
Proof. reflexivity. Qed.

Lemma connect_to_network_run (w : world) (s : wifi) (target pass : string) :
  (returned (call (connect_to_network target pass) w s) = Ok false
   /\ (state_after (call (connect_to_network target pass) w s) = s
       \/ state_after (call (connect_to_network target pass) w s) = clear_hotspot s)
   /\ (~ In (Run RestartWpaSupplicant)
           (calls_made (call (connect_to_network target pass) w s))
       \/ daemons_launch w = false))
  \/ (In (Run RestartWpaSupplicant)
         (calls_made (call (connect_to_network target pass) w s))
      /\ daemons_launch w = true
      /\ match first_match w target 0 30 with
         | Some k =>
             returned (call (connect_to_network target pass) w s) = Ok true
             /\ state_after (call (connect_to_network target pass) w s)
                = enter_client target pass (info_ip_address (probe_report w k)) s
             /\ runs_of Iwgetid (calls_made (call (connect_to_network target pass) w s))
                = S k
             /\ sleeps_of 1 (calls_made (call (connect_to_network target pass) w s))
                = S k
         | None =>
             returned (call (connect_to_network target pass) w s) = Ok false
             /\ state_after (call (connect_to_network target pass) w s) = clear_hotspot s
             /\ runs_of Iwgetid (calls_made (call (connect_to_network target pass) w s))
                = 30%nat
             /\ sleeps_of 1 (calls_made (call (connect_to_network target pass) w s))
                = 30%nat
         end).
Proof.
  remember (call (connect_to_network target pass) w s) as x eqn:Hx.
  unfold call in Hx.
  change (connect_to_network target pass)
    with (try (s0 <- get ;;
               (if hotspot_active s0 then (_ <- stop_hotspot ;; ret tt) else ret tt) ;;
               connect_steps target pass)%py
              any_exception (ret false)) in Hx.
  rewrite try_eq, bind_eq in Hx. unfold get at 1 in Hx. cbn [self] in Hx.
  rewrite bind_eq in Hx.
  set (m0 := {| self := s; calls := [] |}) in Hx.
  (* the state and the calls once the hotspot has been dealt with *)
  assert (Hstage :
    (exists e m1, (if hotspot_active s then (_ <- stop_hotspot ;; ret tt)%py else ret tt) w m0
                  = (Raise e, m1)
                  /\ (self m1 = s \/ self m1 = clear_hotspot s)
                  /\ forallb hotspot_event (calls m1) = true)
    \/ (exists m1, (if hotspot_active s then (_ <- stop_hotspot ;; ret tt)%py else ret tt) w m0
                   = (Ok tt, m1)
                   /\ self m1 = clear_hotspot s
                   /\ forallb hotspot_event (calls m1) = true)).
  { destruct (hotspot_active s) eqn:Hh.
    - rewrite bind_eq.
      destruct (stop_hotspot_spec w m0) as [(evs & Hev & Hc) Hs].
      destruct (stop_hotspot w m0) as [[b | e] m1]; cbn [fst snd] in *.
      + right. exists m1. unfold ret. rewrite Hev. auto.
      + left. exists e, m1. rewrite Hev. destruct Hs as [_ Hs]. auto.
    - right. exists m0. unfold ret.
      rewrite (clear_hotspot_inactive s Hh). auto. }
  destruct Hstage as [(e & m1 & E1 & Hs1 & Hc1) | (m1 & E1 & Hs1 & Hc1)];
    rewrite E1 in Hx.
  - subst x. left. cbn. split; [reflexivity |]. split; [exact Hs1 |].
    left. exact (not_in_outside hotspot_event (Run RestartWpaSupplicant) _ Hc1 eq_refl).
  - pose proof (connect_steps_spec target pass w m1
                  (runs_of_outside hotspot_event RestartWpaSupplicant _ Hc1 eq_refl)
                  (runs_of_outside hotspot_event WpaReconfigure _ Hc1 eq_refl)
                  (runs_of_outside hotspot_event Iwgetid _ Hc1 eq_refl)
                  (sleeps_of_outside hotspot_event 1 _ Hc1 eq_refl)
                  (not_in_outside hotspot_event (Run RestartWpaSupplicant) _ Hc1 eq_refl))
      as Hsteps.
    cbv zeta in Hsteps. rewrite Hs1 in Hsteps.
    destruct (connect_steps target pass w m1) as [r m5]. cbn [fst snd] in Hsteps.
    destruct Hsteps as [(Hself & Hres & Htr) | (Hin & Hd & Hm)].
    + left. destruct Hres as [-> | (e & ->)]; subst x; cbn;
        (split; [reflexivity |]); (split; [right; exact Hself | exact Htr]).
    + right. split; [subst x; destruct r; exact Hin |].
      split; [exact Hd |].
      destruct (first_match w target 0 30) as [k |];
        destruct Hm as (W1 & W2 & W3 & W4); subst r; subst x; cbn;
        repeat split; assumption.
Qed.

Lemma first_match_some (w : world) (target : string) (n : nat) :
  forall from k,
    first_match w target from n = Some k ->
    (from <= k < from + n)%nat
    /\ link_matches w target k = true
    /\ forall j, (from <= j < k)%nat -> link_matches w target j = false.
Proof.
  induction n as [| n IH]; intros from k H; [discriminate |].
  cbn [first_match] in H. destruct (link_matches w target from) eqn:Hm.
  - injection H as <-. split; [lia |]. split; [exact Hm |]. intros j Hj. lia.
  - destruct (IH _ _ H) as (Hr & Hk & Hj). split; [lia |]. split; [exact Hk |].
    intros j Hjr. destruct (Nat.eq_dec j from) as [-> | Hne]; [exact Hm |].
    apply Hj. lia.
Qed.

Lemma first_match_none (w : world) (target : string) (n : nat) :
  forall from,
    first_match w target from n = None ->
    forall j, (from <= j < from + n)%nat -> link_matches w target j = false.
Proof.
  induction n as [| n IH]; intros from H j Hj; [lia |].
  cbn [first_match] in H. destruct (link_matches w target from) eqn:Hm; [discriminate |].
  destruct (Nat.eq_dec j from) as [-> | Hne]; [exact Hm |].
  apply (IH _ H). lia.
Qed.

(** C1, as the code has it: when the configuration has been written (the
    restart of the supplicant follows it) and the two daemon commands
    start, the link is probed once a second, 30 times at most.  The first
    probe that reports a connected link with the requested name ends the
    call with true, in client mode with that name and the address of that
    probe; if none of the 30 probes does, the call returns false and the
    [connected], [current_ssid] and [ip_address] the manager had before
    the call stay as they were, the hotspot flag being false. *)
Theorem connect_to_network_polls (w : world) (s : wifi) (target pass : string) :
  In (Run RestartWpaSupplicant) (calls_made (call (connect_to_network target pass) w s)) ->
  daemons_launch w = true ->
  (forall k,
      (k < 30)%nat ->
      link_matches w target k = true ->
      (forall j, (j < k)%nat -> link_matches w target j = false) ->
      returned (call (connect_to_network target pass) w s) = Ok true
      /\ state_after (call (connect_to_network target pass) w s)
         = enter_client target pass (info_ip_address (probe_report w k)) s
      /\ runs_of Iwgetid (calls_made (call (connect_to_network target pass) w s)) = S k
      /\ sleeps_of 1 (calls_made (call (connect_to_network target pass) w s)) = S k)
  /\ ((forall k, (k < 30)%nat -> link_matches w target k = false) ->
      returned (call (connect_to_network target pass) w s) = Ok false
      /\ state_after (call (connect_to_network target pass) w s) = clear_hotspot s
      /\ runs_of Iwgetid (calls_made (call (connect_to_network target pass) w s)) = 30%nat
      /\ sleeps_of 1 (calls_made (call (connect_to_network target pass) w s)) = 30%nat)
  /\ (returned (call (connect_to_network target pass) w s) = Ok true
      <-> exists k, (k < 30)%nat /\ link_matches w target k = true).
Proof.
  intros Hwritten Hlaunch.
  destruct (connect_to_network_run w s target pass)
    as [(_ & _ & [Hno | Hno]) | (_ & _ & Hm)];
    [contradiction | congruence |].
  destruct (first_match w target 0 30) as [k0 |] eqn:Hf.
  - destruct (first_match_some _ _ _ _ _ Hf) as (Hr & Hk & Hj).
    destruct Hm as (R1 & R2 & R3 & R4).
    split; [| split].
    + intros k Hk30 Hmk Hbefore.
      assert (k = k0).
      { destruct (Nat.lt_trichotomy k k0) as [Hlt | [Heq | Hgt]]; [| exact Heq |].
        - rewrite (Hj k) in Hmk by lia. discriminate.
        - rewrite (Hbefore k0 Hgt) in Hk. discriminate. }
      subst k. auto.
    + intros Hnone. rewrite (Hnone k0) in Hk by lia. discriminate.
    + split; [intros _; exists k0; split; [lia | exact Hk] | intros _; exact R1].
  - pose proof (first_match_none _ _ _ _ Hf) as Hnone.
    destruct Hm as (R1 & R2 & R3 & R4).
    split; [| split].
    + intros k Hk30 Hmk _. rewrite (Hnone k) in Hmk by lia. discriminate.
    + intros _. auto.
    + split; [intros H; congruence |].
      intros (k & Hk30 & Hmk). rewrite (Hnone k) in Hmk by lia. discriminate.
Qed.

Ltac find_call := vm_compute; repeat first [left; reflexivity | right].

Lemma connect_to_network_polls_witness :
  returned (call (connect_to_network "Home" "homepass") Examples.joining
                 (init Examples.cfg)) = Ok true
  /\ state_after (call (connect_to_network "Home" "homepass") Examples.joining
                       (init Examples.cfg))
     = enter_client "Home" "homepass"
         (info_ip_address (probe_report Examples.joining 2)) (init Examples.cfg)
  /\ runs_of Iwgetid
       (calls_made (call (connect_to_network "Home" "homepass") Examples.joining
                         (init Examples.cfg))) = 3%nat
  /\ sleeps_of 1
       (calls_made (call (connect_to_network "Home" "homepass") Examples.joining
                         (init Examples.cfg))) = 3%nat.
Proof.
  refine (proj1 (connect_to_network_polls Examples.joining (init Examples.cfg)
                   "Home" "homepass" _ _) 2%nat _ _ _).
  - find_call.
  - reflexivity.
  - lia.
  - vm_compute. reflexivity.
  - intros j Hj. destruct j as [| [| j]]; [vm_compute; reflexivity .. | lia].
Defined.

(** C1 as stated fails: a manager that is in client mode on ["Old"] and
    asks for ["Home"] in vain (the configuration is written, the 30 probes
    are made, none matches) gets false and is still in client mode. *)
Lemma connect_failure_keeps_client_mode :
  Examples.on_old
  = state_after (call (connect_to_network "Old" "oldpass") Examples.still_on_old
                      (init Examples.cfg))
  /\ In (Run RestartWpaSupplicant)
        (calls_made (call (connect_to_network "Home" "homepass")
                          Examples.still_on_old Examples.on_old))
  /\ (forall k, link_matches Examples.still_on_old "Home" k = false)
  /\ runs_of Iwgetid
       (calls_made (call (connect_to_network "Home" "homepass")
                         Examples.still_on_old Examples.on_old)) = 30%nat
  /\ returned (call (connect_to_network "Home" "homepass")
                    Examples.still_on_old Examples.on_old) = Ok false
  /\ connected (state_after (call (connect_to_network "Home" "homepass")
                                  Examples.still_on_old Examples.on_old)) = true
  /\ current_ssid (state_after (call (connect_to_network "Home" "homepass")
                                     Examples.still_on_old Examples.on_old))
     = Some "Old".
Proof.
  split; [vm_compute; reflexivity |].
  split; [find_call |].
  split; [intros k; vm_compute; reflexivity |].
  repeat split; vm_compute; reflexivity.
Qed.

(** C10: [connect_to_network] stores the credentials when it returns
    true, which it does only after a probe has matched; whenever it
    returns false, and it never raises, the configuration object is as it
    was. *)
Theorem connect_to_network_credentials (w : world) (s : wifi) (target pass : string) :
  (returned (call (connect_to_network target pass) w s) = Ok true
   /\ (exists k, (k < 30)%nat /\ link_matches w target k = true)
   /\ ssid (config (state_after (call (connect_to_network target pass) w s)))
      = Some target
   /\ password (config (state_after (call (connect_to_network target pass) w s)))
      = pass)
  \/ (returned (call (connect_to_network target pass) w s) = Ok false
      /\ config (state_after (call (connect_to_network target pass) w s)) = config s).
Proof.
  destruct (connect_to_network_run w s target pass)
    as [(R & [St | St] & _) | (_ & _ & Hm)].
  - right. rewrite St. auto.
  - right. rewrite St. auto.
  - destruct (first_match w target 0 30) as [k |] eqn:Hf.
    + destruct (first_match_some _ _ _ _ _ Hf) as (Hr & Hk & _).
      destruct Hm as (R1 & R2 & _). left. rewrite R2.
      split; [exact R1 |]. split; [exists k; split; [lia | exact Hk] |].
      split; reflexivity.
    + destruct Hm as (R1 & R2 & _). right. rewrite R2. auto.
Qed.

(** ** The state machine *)

Lemma mode_invariant_clear (s : wifi) : mode_invariant s -> mode_invariant (clear_hotspot s).
Proof.
  intros [H1 H2]. split; cbn; [intros [_ H]; discriminate H | exact H2].
Qed.

Lemma mode_invariant_hotspot (s : wifi) : mode_invariant (enter_hotspot s).
Proof. split; cbn; [intros [H _]; discriminate H | congruence]. Qed.

Lemma mode_invariant_client (target pass : string) (ip : option string) (s : wifi) :
  mode_invariant (enter_client target pass ip s).
Proof. split; cbn; [intros [_ H]; discriminate H | reflexivity]. Qed.

Lemma connect_to_network_invariant (w : world) (s : wifi) (target pass : string) :
  mode_invariant s ->
  mode_invariant (state_after (call (connect_to_network target pass) w s)).
Proof.
  intros Hinv.
  destruct (connect_to_network_run w s target pass)
    as [(_ & [St | St] & _) | (_ & _ & Hm)].
  - rewrite St. exact Hinv.
  - rewrite St. apply mode_invariant_clear, Hinv.
  - destruct (first_match w target 0 30); destruct Hm as (_ & R2 & _); rewrite R2.
    + apply mode_invariant_client.
    + apply mode_invariant_clear, Hinv.
Qed.

Lemma stop_hotspot_invariant (w : world) (s : wifi) :
  mode_invariant s -> mode_invariant (state_after (call stop_hotspot w s)).
Proof.
  intros Hinv. unfold state_after, call.
  pose proof (stop_hotspot_spec w {| self := s; calls := [] |}) as [_ H].
  destruct (stop_hotspot w {| self := s; calls := [] |}) as [r m'].
  cbn [fst snd self] in *.
  destruct r as [b | e]; [| destruct H as [_ [H | H]]]; rewrite H;
    try exact Hinv; apply mode_invariant_clear, Hinv.
Qed.

Lemma start_hotspot_invariant (w : world) (s : wifi) :
  mode_invariant s -> mode_invariant (state_after (call start_hotspot w s)).
Proof.
  intros Hinv. unfold state_after, call, start_hotspot. run_method.
  repeat case_outcome; try exact Hinv; apply mode_invariant_hotspot.
Qed.

Lemma get_status_state (w : world) (s : wifi) :
  state_after (call get_status w s) = s.
Proof.
  unfold state_after, call, get_status, bind.
  destruct (get_current_network_info_spec w {| self := s; calls := [] |})
    as (evs & E & _).
  rewrite E. reflexivity.
Qed.

Lemma cleanup_state (w : world) (s : wifi) :
  state_after (call cleanup w s) = s
  \/ state_after (call cleanup w s) = state_after (call stop_hotspot w s).
Proof.
  unfold state_after, call, cleanup, bind, get, ret. cbn [self].
  destruct (hotspot_active s); [| left; reflexivity].
  right.
  destruct (stop_hotspot w {| self := s; calls := [] |}) as [[b | e] m']; reflexivity.
Qed.

Lemma connect_state (w : world) (s : wifi) :
  state_after (call connect w s) = s
  \/ exists target,
       state_after (call connect w s)
       = state_after (call (connect_to_network target (password (config s))) w s).
Proof.
  unfold state_after, call, connect, bind, get. cbn [self].
  destruct (ssid (config s)) as [[| c t] |]; [left; reflexivity | | left; reflexivity].
  right. exists (String c t). reflexivity.
Qed.

Lemma perform_invariant (o : operation) (w : world) (s : wifi) :
  mode_invariant s -> mode_invariant (perform o w s).
Proof.
  intros Hinv. destruct o; cbn [perform].
  - apply connect_to_network_invariant, Hinv.
  - destruct (connect_state w s) as [-> | (target & ->)];
      [exact Hinv | apply connect_to_network_invariant, Hinv].
  - apply start_hotspot_invariant, Hinv.
  - apply stop_hotspot_invariant, Hinv.
  - rewrite get_status_state. exact Hinv.
  - destruct (cleanup_state w s) as [-> | ->];
      [exact Hinv | apply stop_hotspot_invariant, Hinv].
Qed.

(** C3: in every state reachable from a new manager by calls of
    [connect_to_network], [connect], [start_hotspot], [stop_hotspot],
    [get_status] and [cleanup], whatever the external calls do, [connected]
    and [hotspot_active] are not both true, and [current_ssid] is set only
    when [connected] is. *)
Theorem reachable_mode_invariant (s : wifi) : reachable s -> mode_invariant s.
Proof.
  induction 1 as [wifi_config | s o w _ IH].
  - split; cbn; [intros [H _]; discriminate H | congruence].
  - apply perform_invariant, IH.
Qed.

Lemma reachable_mode_invariant_witness :
  mode_invariant
    (perform StartHotspot Examples.fresh
       (perform (ConnectToNetwork "Home" "homepass") Examples.joining
          (init Examples.cfg))).
Proof.
  apply (reachable_mode_invariant
           (perform StartHotspot Examples.fresh
              (perform (ConnectToNetwork "Home" "homepass") Examples.joining
                 (init Examples.cfg)))).
  apply reach_call. apply reach_call. apply reach_init.
Defined.

(** * Further properties *)

(** ** [start_hotspot] *)

Lemma start_hotspot_run (w : world) (s : wifi) :
  call start_hotspot w s
  = (Ok (helper_started w s),
     if helper_started w s then enter_hotspot s else s,
     [Access; Run (hotspot_start_command s)]).
Proof.
  unfold call, start_hotspot, helper_started, hotspot_start_command. run_method.
  destruct (w_proc w _ 0) as [rc out err | e]; cbn.
  - destruct rc; reflexivity.
  - destruct e; reflexivity.
Qed.

(** X1: [start_hotspot] never raises and makes two calls, the access check
    and the helper script.  It returns true exactly when the script exits
    with status 0, and then the manager is in hotspot mode with the
    gateway address and no network; in every other case (other status,
    time limit, any exception) the state is untouched. *)
Theorem start_hotspot_outcome (w : world) (s : wifi) :
  returned (call start_hotspot w s) = Ok (helper_started w s)
  /\ state_after (call start_hotspot w s)
     = (if helper_started w s then enter_hotspot s else s)
  /\ calls_made (call start_hotspot w s) = [Access; Run (hotspot_start_command s)].
Proof. rewrite start_hotspot_run. repeat split. Qed.

(** ** [stop_hotspot] *)

(** X2: when the helper script exits with status 0 and the restart of
    [dhcpcd] ends, with whatever status, [stop_hotspot] returns true after
    exactly these two calls, and clears the hotspot flag only. *)
Theorem stop_hotspot_success
    (w : world) (s : wifi) (out err : string) (rc : Z) (out' err' : string) :
  w_proc w HotspotStop 0 = Exited 0 out err ->
  w_proc w RestartDhcpcd 0 = Exited rc out' err' ->
  call stop_hotspot w s
  = (Ok true, clear_hotspot s, [Run HotspotStop; Run RestartDhcpcd]).
Proof.
  intros H1 H2. unfold call, stop_hotspot. run_method.
  rewrite H1. cbn. rewrite H2. reflexivity.
Qed.

Lemma stop_hotspot_success_witness :
  call stop_hotspot Examples.fresh Examples.in_hotspot
  = (Ok true, clear_hotspot Examples.in_hotspot, [Run HotspotStop; Run RestartDhcpcd]).
Proof.
  apply (stop_hotspot_success Examples.fresh Examples.in_hotspot "" "" 0 "" "");
    reflexivity.
Defined.

(** X3: starting the hotspot and then stopping it, whenever both calls
    return and the first returns true, leaves a manager that is neither
    connected nor in hotspot mode and records no network, but still has
    the gateway address of the hotspot as its address. *)
Theorem start_then_stop_hotspot (w w' : world) (s : wifi) (b : bool) :
  returned (call start_hotspot w s) = Ok true ->
  returned (call stop_hotspot w' (state_after (call start_hotspot w s))) = Ok b ->
  let s' := state_after (call stop_hotspot w' (state_after (call start_hotspot w s))) in
  connected s' = false /\ hotspot_active s' = false
  /\ current_ssid s' = None /\ ip_address s' = Some "192.168.24.1"
  /\ config s' = config s.
Proof.
  rewrite start_hotspot_run. unfold returned at 1. cbn [fst].
  intros Hs. injection Hs as Hs. rewrite Hs.
  change (state_after (Ok true, enter_hotspot s, [Access; Run (hotspot_start_command s)]))
    with (enter_hotspot s).
  unfold returned, state_after, call.
  pose proof (stop_hotspot_spec w' {| self := enter_hotspot s; calls := [] |}) as [_ H].
  destruct (stop_hotspot w' {| self := enter_hotspot s; calls := [] |}) as [r m'].
  cbn [fst snd] in *. intros Hr. rewrite Hr in H. cbn [self] in H. rewrite H.
  cbn. auto.
Qed.

Lemma start_then_stop_hotspot_witness :
  let s' := state_after (call stop_hotspot Examples.fresh
                              (state_after (call start_hotspot Examples.fresh
                                                 (init Examples.cfg)))) in
  connected s' = false /\ hotspot_active s' = false
  /\ current_ssid s' = None /\ ip_address s' = Some "192.168.24.1"
  /\ config s' = config (init Examples.cfg).
Proof.
  apply (start_then_stop_hotspot Examples.fresh Examples.fresh (init Examples.cfg) true);
    reflexivity.
Defined.

(** ** [get_current_network_info] and [get_status] *)

(** X4: a link report says "connected" exactly when it has both a network
    name and an address; when [iwgetid] does not exit with status 0 it
    says "not connected". *)
Theorem probe_report_connected (w : world) (k : nat) :
  info_connected (probe_report w k)
  = is_some (info_ssid (probe_report w k))
    && is_some (info_ip_address (probe_report w k))
  /\ match w_proc w Iwgetid k with
     | Exited 0 _ _ => True
     | _ => info_connected (probe_report w k) = false
     end.
Proof.
  unfold probe_report, probe_link, blank. run_method.
  destruct (w_proc w Iwgetid k) as [rc out err | e]; [| destruct e; cbn; auto].
  destruct rc; cbn; repeat case_probe; auto.
Qed.

(** X5: [get_status] never raises and never changes the state; it reports
    the stored flags, name, address and configured names as they are,
    with the report and the signal strength of one fresh link probe. *)
Theorem get_status_reads (w : world) (s : wifi) :
  exists evs,
    call get_status w s
    = (Ok {| st_connected := connected s;
             st_hotspot_active := hotspot_active s;
             st_current_ssid := current_ssid s;
             st_ip_address := ip_address s;
             st_configured_ssid := ssid (config s);
             st_hotspot_ssid := hotspot_ssid (config s);
             st_signal_strength := info_signal_strength (probe_report w 0);
             st_network_info := probe_report w 0 |},
       s, Run Iwgetid :: evs)
    /\ forallb probe_tail_event evs = true.
Proof.
  unfold call, get_status, bind, get_current_network_info. cbn [calls runs_of].
  destruct (probe_link_spec 0 w {| self := s; calls := [] |}) as (evs & E & Hc).
  rewrite E. exists evs. split; [reflexivity | exact Hc].
Qed.

(** ** [scan_networks], whatever the scan prints *)


(** *** The exceptions of a quality line *)





(** *** The ends of the scale *)

Lemma round_ratio_same (m : Z) :
  0 < m -> Num.round_ratio m m = (2 ^ 52, - 52).
Proof.
  intros Hm. unfold Num.round_ratio.
  destruct (Z.eqb_spec m 0) as [? | _]; [lia |].
  assert (Hfl : Num.floor_log2_ratio m m = 0).
  { unfold Num.floor_log2_ratio, Num.scaled_le. rewrite Z.sub_diag. cbn.
    rewrite Z.mul_1_r, Z.leb_refl. reflexivity. }
  unfold Num.ulp_exp. rewrite Hfl.
  change (Z.max (0 - 52) (- 1074)) with (- 52).
  change (0 <=? - 52) with false. cbv iota.
  change (- - 52) with 52.
  unfold Num.round_half_even.
  rewrite (Z.mul_comm m (2 ^ 52)), Z.div_mul, Z.mod_mul by lia.
  change (2 * 0) with 0.
  destruct (Z.compare_spec 0 m) as [? | _ | ?]; try lia. reflexivity.
Qed.

(** X8: a ratio [m/m] is stored as 100 and a ratio [0/m] as 0, for every
    non-zero maximum. *)
Theorem percentage_ends (m : Z) :
  m <> 0 -> percentage m m = Ok 100 /\ percentage 0 m = Ok 0.
Proof.
  intros Hm. unfold percentage, Num.true_div.
  destruct (Z.eqb_spec m 0) as [? | _]; [contradiction |].
  split.
  - rewrite round_ratio_same by lia.
    change (Num.too_large (2 ^ 52) (- 52)) with false. cbv iota.
    assert (Hs : Z.sgn m * Z.sgn m = 1) by (destruct m; [contradiction | reflexivity ..]).
    rewrite Hs. vm_compute. reflexivity.
  - cbn. reflexivity.
Qed.

Lemma percentage_ends_witness : percentage 70 70 = Ok 100 /\ percentage 0 70 = Ok 0.
Proof. apply (percentage_ends 70). discriminate. Defined.

(** *** The encryption flag *)

Module ContainsFacts.
Import Py.

Lemma startswith_lower (p s : string) :
  startswith p s = true -> startswith (lower p) (lower s) = true.
Proof.
  revert s. induction p as [| a p IH]; intros s H; [reflexivity |].
  destruct s as [| b s]; [discriminate |].
  cbn [startswith lower] in *. apply andb_true_iff in H as [Hab Hps].
  apply Ascii.eqb_eq in Hab. subst b.
  rewrite Ascii.eqb_refl. exact (IH _ Hps).
Qed.

Lemma contains_lower (p s : string) :
  contains p s = true -> contains (lower p) (lower s) = true.
Proof.
  induction s as [| c s IH]; intros H.
  - cbn [contains lower] in *. rewrite orb_false_r in *.
    exact (startswith_lower p "" H).
  - cbn [contains lower] in *. apply orb_true_iff in H as [H | H].
    + change (String (lower_char c) (lower s)) with (lower (String c s)).
      rewrite (startswith_lower _ _ H). reflexivity.
    + rewrite (IH H). apply orb_true_r.
Qed.

Lemma startswith_trans (q p s : string) :
  startswith q p = true -> startswith p s = true -> startswith q s = true.
Proof.
  revert p s. induction q as [| a q IH]; intros p s Hqp Hps; [reflexivity |].
  destruct p as [| b p]; [discriminate |].
  destruct s as [| c s]; [discriminate |].
  cbn [startswith] in *.
  apply andb_true_iff in Hqp as [Hab Hqp]. apply andb_true_iff in Hps as [Hbc Hps].
  apply Ascii.eqb_eq in Hab, Hbc. subst b c.
  rewrite Ascii.eqb_refl. exact (IH _ _ Hqp Hps).
Qed.

Lemma contains_head (q s : string) : startswith q s = true -> contains q s = true.
Proof. intros H. destruct s; cbn [contains]; rewrite H; reflexivity. Qed.

Lemma contains_tail (q : string) (c : ascii) (s : string) :
  contains q s = true -> contains q (String c s) = true.
Proof. intros H. cbn [contains]. rewrite H. apply orb_true_r. Qed.

Lemma contains_startswith (q p s : string) :
  contains q p = true -> startswith p s = true -> contains q s = true.
Proof.
  revert s. induction p as [| a p IH]; intros s Hq Hp.
  - cbn [contains] in Hq. rewrite orb_false_r in Hq.
    apply contains_head. destruct q; [reflexivity | discriminate].
  - cbn [contains] in Hq. apply orb_true_iff in Hq as [Hq | Hq].
    + apply contains_head. exact (startswith_trans _ _ _ Hq Hp).
    + destruct s as [| c s]; [discriminate |].
      cbn [startswith] in Hp. apply andb_true_iff in Hp as [_ Hp].
      apply contains_tail. exact (IH _ Hq Hp).
Qed.

(** A part of a part is a part. *)
Lemma contains_trans (q p s : string) :
  contains q p = true -> contains p s = true -> contains q s = true.
Proof.
  intros Hq. induction s as [| c s IH]; intros Hp.
  - cbn [contains] in Hp. rewrite orb_false_r in Hp.
    exact (contains_startswith _ _ _ Hq Hp).
  - cbn [contains] in Hp. apply orb_true_iff in Hp as [Hp | Hp].
    + exact (contains_startswith _ _ _ Hq Hp).
    + apply contains_tail. exact (IH Hp).
Qed.

End ContainsFacts.

(** The test of the encryption branch is always true: the lowered line
    holds ["encryption"], which holds ["on"]. *)
Lemma encryption_test_true (line : string) :
  Py.contains "Encryption key:" line = true ->
  Py.contains "on" (Py.lower line) = true.
Proof.
  intros H. apply ContainsFacts.contains_lower in H.
  exact (ContainsFacts.contains_trans "on" (Py.lower "Encryption key:") _ eq_refl H).
Qed.

Lemma scan_line_never_unencrypted (st st' : list network * network) (raw : string) :
  scan_line st raw = Ok st' ->
  Forall never_unencrypted (fst st) -> never_unencrypted (snd st) ->
  Forall never_unencrypted (fst st') /\ never_unencrypted (snd st').
Proof.
  destruct st as [nets cur]. intros Hs Hn Hc. cbn [fst snd] in *.
  unfold scan_line in Hs. cbv zeta in Hs.
  destruct (is_cell (Py.strip raw)).
  - destruct (Py.index (Py.split "Address: " (Py.strip raw)) 1) as [addr |];
      cbn [rbind] in Hs; [| discriminate].
    injection Hs as <-. cbn [fst snd]. split; [| cbn; discriminate].
    destruct (network_nonempty cur); [| exact Hn].
    apply Forall_app. split; [exact Hn | constructor; [exact Hc | constructor]].
  - destruct (Py.contains "ESSID:" (Py.strip raw)).
    + destruct (Py.index (Py.split "ESSID:" (Py.strip raw)) 1) as [rest |];
        cbn [rbind] in Hs; [| discriminate].
      injection Hs as <-. cbn [fst snd]. split; [exact Hn |].
      destruct (Py.strip_chars Py.dquote rest); exact Hc.
    + destruct (Py.contains "Quality=" (Py.strip raw)).
      * destruct (quality_field (Py.strip raw)) as [q |]; cbn [rbind] in Hs;
          [| discriminate].
        injection Hs as <-. cbn [fst snd]. split; [exact Hn |].
        destruct q; exact Hc.
      * destruct (Py.contains "Encryption key:" (Py.strip raw)) eqn:He;
          injection Hs as <-; cbn [fst snd]; (split; [exact Hn |]); [| exact Hc].
        rewrite (encryption_test_true _ He). cbn. discriminate.
Qed.

Lemma scan_lines_never_unencrypted (lines : list string) :
  forall st st',
    scan_lines st lines = Ok st' ->
    Forall never_unencrypted (fst st) -> never_unencrypted (snd st) ->
    Forall never_unencrypted (fst st') /\ never_unencrypted (snd st').
Proof.
  induction lines as [| raw rest IH]; intros st st' Hs Hn Hc.
  - injection Hs as <-. split; assumption.
  - cbn [scan_lines] in Hs.
    destruct (scan_line st raw) as [st1 |] eqn:H1; cbn [rbind] in Hs; [| discriminate].
    destruct (scan_line_never_unencrypted _ _ _ H1 Hn Hc) as [Hn1 Hc1].
    exact (IH _ _ Hs Hn1 Hc1).
Qed.

(** X9: no record returned by [scan_networks] has ['encrypted'] false,
    whatever the scan prints: the flag is the test ['on' in line.lower()],
    and a line that reaches it holds ["Encryption"]. *)
Theorem scan_networks_never_unencrypted (w : world) (s : wifi) (nets : list network) :
  returned (call scan_networks w s) = Ok nets ->
  Forall never_unencrypted nets.
Proof.
  intros Hret.
  destruct (scan_networks_result w s nets Hret) as [-> | Hp]; [constructor |].
  unfold parse_scan, collect_networks in Hp.
  destruct (scan_lines ([], empty_network) (Py.split Py.nl (scan_output w)))
    as [[networks cur] |] eqn:Hs; cbn [rbind] in Hp; [| discriminate].
  injection Hp as <-.
  destruct (scan_lines_never_unencrypted _ _ _ Hs) as [Hn Hc];
    [constructor | cbn; discriminate |].
  cbn [fst snd] in Hn, Hc.
  eapply Permutation_Forall; [apply sort_desc_perm |].
  destruct (network_nonempty cur); [| exact Hn].
  apply Forall_app. split; [exact Hn | constructor; [exact Hc | constructor]].
Qed.

Lemma scan_networks_never_unencrypted_witness :
  exists nets,
    returned (call scan_networks (Examples.scanning Examples.scan_four)
                                 (init Examples.cfg)) = Ok nets
    /\ List.length nets = 4%nat
    /\ Forall never_unencrypted nets.
Proof.
  eexists. split; [vm_compute; reflexivity |]. split; [reflexivity |].
  apply (scan_networks_never_unencrypted
           (Examples.scanning Examples.scan_four) (init Examples.cfg)).
  vm_compute. reflexivity.
Defined.

(** ** [scan_networks] on stanzas whose markers stand apart *)







(** ** [cleanup] and [connect] *)

(** X10: [cleanup] without an active hotspot makes no call and changes
    nothing; with one it is [stop_hotspot].  Once it has returned the
    hotspot flag is false, so that a second [cleanup] makes no call at
    all. *)
Theorem cleanup_outcome (w : world) (s : wifi) :
  (if hotspot_active s
   then call cleanup w s
        = (match returned (call stop_hotspot w s) with
           | Ok _ => Ok tt
           | Raise e => Raise e
           end,
           state_after (call stop_hotspot w s), calls_made (call stop_hotspot w s))
   else call cleanup w s = (Ok tt, s, []))
  /\ match returned (call cleanup w s) with
     | Ok _ =>
         hotspot_active (state_after (call cleanup w s)) = false
         /\ forall w', call cleanup w' (state_after (call cleanup w s))
                       = (Ok tt, state_after (call cleanup w s), [])
     | Raise e => stop_handled e = false
     end.
Proof.
  assert (Hidle : forall w' s', hotspot_active s' = false ->
                                call cleanup w' s' = (Ok tt, s', [])).
  { intros w' s' H. unfold call, cleanup, bind, get, ret. cbn [self]. rewrite H.
    reflexivity. }
  destruct (hotspot_active s) eqn:Hh.
  - assert (E : call cleanup w s
                = (match returned (call stop_hotspot w s) with
                   | Ok _ => Ok tt
                   | Raise e => Raise e
                   end,
                   state_after (call stop_hotspot w s),
                   calls_made (call stop_hotspot w s))).
    { unfold returned, state_after, calls_made, call, cleanup, bind, get, ret.
      cbn [self]. rewrite Hh.
      destruct (stop_hotspot w {| self := s; calls := [] |}) as [[b | e] m'];
        reflexivity. }
    split; [exact E |]. rewrite E.
    pose proof (stop_hotspot_spec w {| self := s; calls := [] |}) as [_ H].
    unfold returned, state_after, calls_made, call.
    destruct (stop_hotspot w {| self := s; calls := [] |}) as [[b | e] m'];
      cbn [fst snd] in *.
    + assert (Hoff : hotspot_active (self m') = false) by (rewrite H; reflexivity).
      split; [exact Hoff |]. intros w'. exact (Hidle w' _ Hoff).
    + exact (proj1 H).
  - split; [exact (Hidle w s Hh) |]. rewrite (Hidle w s Hh).
    unfold returned, state_after. cbn [fst snd].
    split; [exact Hh |]. intros w'. exact (Hidle w' s Hh).
Qed.

Lemma enter_client_own_config (s : wifi) (target : string) (ip : option string) :
  ssid (config s) = Some target ->
  config (enter_client target (password (config s)) ip s) = config s.
Proof.
  destruct s as [? ? ? ? [? ? ? ? ?]]. cbn. intros ->. reflexivity.
Qed.

(** X11: [connect] never raises.  With no network name configured (none,
    or the empty one) it returns false without any external call; and in
    every case it leaves the configuration object exactly as it was, the
    credentials stored on success being the ones it read. *)
Theorem connect_keeps_config (w : world) (s : wifi) :
  (exists b, returned (call connect w s) = Ok b)
  /\ config (state_after (call connect w s)) = config s
  /\ match ssid (config s) with
     | None | Some EmptyString => call connect w s = (Ok false, s, [])
     | Some target =>
         call connect w s = call (connect_to_network target (password (config s))) w s
     end.
Proof.
  destruct (ssid (config s)) as [[| c t] |] eqn:Hssid.
  - assert (E : call connect w s = (Ok false, s, [])).
    { unfold call, connect, bind, get, ret. cbn [self]. rewrite Hssid. reflexivity. }
    rewrite E. unfold returned, state_after. cbn. eauto.
  - assert (E : call connect w s
                = call (connect_to_network (String c t) (password (config s))) w s).
    { unfold call, connect, bind, get. cbn [self]. rewrite Hssid. reflexivity. }
    rewrite E. split; [| split; [| reflexivity]].
    + destruct (connect_to_network_run w s (String c t) (password (config s)))
        as [(R & _) | (_ & _ & Hm)]; [eauto |].
      destruct (first_match w (String c t) 0 30); destruct Hm as (R & _); eauto.
    + destruct (connect_to_network_run w s (String c t) (password (config s)))
        as [(_ & [St | St] & _) | (_ & _ & Hm)]; try (rewrite St; reflexivity).
      destruct (first_match w (String c t) 0 30); destruct Hm as (_ & St & _);
        rewrite St; [apply enter_client_own_config; exact Hssid | reflexivity].
  - assert (E : call connect w s = (Ok false, s, [])).
    { unfold call, connect, bind, get, ret. cbn [self]. rewrite Hssid. reflexivity. }
    rewrite E. unfold returned, state_after. cbn. eauto.
Qed.

(** ** The transitions of the state *)

(** Every call leaves the state as it was or applies one of the three
    transitions. *)
Lemma perform_cases (o : operation) (w : world) (s : wifi) :
  perform o w s = s
  \/ perform o w s = clear_hotspot s
  \/ perform o w s = enter_hotspot s
  \/ exists target pass ip, perform o w s = enter_client target pass ip s.
Proof.
  assert (Hconnect : forall target pass,
             state_after (call (connect_to_network target pass) w s) = s
             \/ state_after (call (connect_to_network target pass) w s) = clear_hotspot s
             \/ state_after (call (connect_to_network target pass) w s) = enter_hotspot s
             \/ exists t p ip,
                  state_after (call (connect_to_network target pass) w s)
                  = enter_client t p ip s).
  { intros target pass.
    destruct (connect_to_network_run w s target pass)
      as [(_ & [St | St] & _) | (_ & _ & Hm)]; auto.
    destruct (first_match w target 0 30); destruct Hm as (_ & St & _); eauto 7. }
  assert (Hstop : state_after (call stop_hotspot w s) = s
                  \/ state_after (call stop_hotspot w s) = clear_hotspot s).
  { unfold state_after, call.
    pose proof (stop_hotspot_spec w {| self := s; calls := [] |}) as [_ H].
    destruct (stop_hotspot w {| self := s; calls := [] |}) as [[b | e] m'];
      cbn [fst snd self] in *; [auto | tauto]. }
  destruct o; cbn [perform].
  - apply Hconnect.
  - destruct (connect_state w s) as [-> | (target & ->)]; [auto | apply Hconnect].
  - rewrite start_hotspot_run. unfold state_after. cbn [fst snd].
    destruct (helper_started w s); auto.
  - destruct Hstop as [-> | ->]; auto.
  - rewrite get_status_state. auto.
  - destruct (cleanup_state w s) as [-> | ->]; [auto |].
    destruct Hstop as [-> | ->]; auto.
Qed.

(** X12: in every reachable state, a connected manager records a network
    name, and it is the configured one; a manager in hotspot mode is not
    connected, records no network name and has the gateway address
    192.168.24.1. *)
Theorem reachable_fields_invariant (s : wifi) : reachable s -> fields_invariant s.
Proof.
  induction 1 as [wifi_config | s o w _ [IH1 IH2]].
  - split; cbn; discriminate.
  - destruct (perform_cases o w s) as [-> | [-> | [-> | (t & p & ip & ->)]]].
    + split; assumption.
    + split; cbn; [exact IH1 | discriminate].
    + split; cbn; [discriminate | auto].
    + split; cbn; [intros _; split; [discriminate | reflexivity] | discriminate].
Qed.

Lemma reachable_fields_invariant_witness :
  fields_invariant
    (perform StartHotspot Examples.fresh
       (perform (ConnectToNetwork "Home" "homepass") Examples.joining
          (init Examples.cfg))).
Proof.
  apply (reachable_fields_invariant
           (perform StartHotspot Examples.fresh
              (perform (ConnectToNetwork "Home" "homepass") Examples.joining
                 (init Examples.cfg)))).
  apply reach_call. apply reach_call. apply reach_init.
Defined.

(** ** [connect_to_network] out of hotspot mode *)

Lemma stop_hotspot_first (w : world) (m : machine) :
  exists evs, calls (snd (stop_hotspot w m)) = (calls m ++ Run HotspotStop :: evs)%list.
Proof.
  unfold stop_hotspot. run_method.
  repeat case_outcome; eexists; rewrite <- ?app_assoc; reflexivity.
Qed.

Lemma update_wpa_supplicant_first (target pass : string) (w : world) (m : machine) :
  exists b evs,
    _update_wpa_supplicant target pass w m
    = (Ok b, {| self := self m; calls := (calls m ++ ConfRead :: evs)%list |}).
Proof.
  unfold _update_wpa_supplicant. run_method.
  destruct (w_conf w) as [existing | e]; cbn.
  - destruct (rewrite_config target pass
                (match existing with Some text => readlines text | None => [] end))
      as [lines | e]; cbn.
    + destruct (w_write w) as [e |]; cbn.
      * eexists _, _. rewrite <- ?app_assoc. reflexivity.
      * destruct (w_proc w ChmodConf _) as [? ? ? | e]; cbn;
          eexists _, _; rewrite <- ?app_assoc; reflexivity.
    + eexists _, _. reflexivity.
  - eexists _, _. reflexivity.
Qed.

(** The steps after the hotspot begin with the read of the configuration. *)
Lemma connect_steps_first (target pass : string) (w : world) (m : machine) :
  exists rest,
    calls (snd (connect_steps target pass w m)) = (calls m ++ ConfRead :: rest)%list.
Proof.
  unfold connect_steps. rewrite bind_eq.
  destruct (update_wpa_supplicant_first target pass w m) as (b & evs & E).
  rewrite E. destruct b; cbn [negb]; [| eexists; reflexivity].
  rewrite bind_eq, subprocess_run_eq. cbn [self calls].
  destruct (w_proc w RestartWpaSupplicant _) as [? ? ? | e]; cbn [andb];
    [| eexists; cbn [snd calls]; rewrite <- app_assoc; reflexivity].
  rewrite bind_eq. unfold sleep, emit. cbn [self calls].
  rewrite bind_eq, subprocess_run_eq. cbn [self calls].
  destruct (w_proc w WpaReconfigure _) as [? ? ? | e]; cbn [andb];
    [| eexists; cbn [snd calls]; rewrite <- !app_assoc; reflexivity].
  match goal with
  | |- context [wait_for_connection 30 target pass w ?m4] =>
      destruct (wait_for_connection_spec target pass w 30 m4) as [(evs' & Hev) _];
      rewrite Hev
  end.
  cbn [calls]. eexists. rewrite <- !app_assoc. reflexivity.
Qed.

(** X13: called in hotspot mode, [connect_to_network] first runs
    [stop_hotspot].  Whenever that returns, with true or with false, the
    configuration is read next and the hotspot flag is false at the end;
    when it raises (an exception outside its handler) the call returns
    false at once, the configuration unread. *)
Theorem connect_to_network_stops_hotspot_first
    (w : world) (s : wifi) (target pass : string) :
  hotspot_active s = true ->
  exists evs,
    calls_made (call stop_hotspot w s) = Run HotspotStop :: evs
    /\ match returned (call stop_hotspot w s) with
       | Ok _ =>
           (exists rest,
               calls_made (call (connect_to_network target pass) w s)
               = (Run HotspotStop :: evs ++ ConfRead :: rest)%list)
           /\ hotspot_active (state_after (call (connect_to_network target pass) w s))
              = false
       | Raise _ =>
           call (connect_to_network target pass) w s
           = (Ok false, state_after (call stop_hotspot w s), Run HotspotStop :: evs)
       end.
Proof.
  intros Hh.
  remember (call (connect_to_network target pass) w s) as x eqn:Hx.
  unfold call in Hx.
  change (connect_to_network target pass)
    with (try (s0 <- get ;;
               (if hotspot_active s0 then (_ <- stop_hotspot ;; ret tt) else ret tt) ;;
               connect_steps target pass)%py
              any_exception (ret false)) in Hx.
  rewrite try_eq, bind_eq in Hx. unfold get at 1 in Hx. cbn [self] in Hx.
  rewrite Hh, bind_eq, bind_eq in Hx.
  unfold returned, state_after, calls_made, call.
  set (m0 := {| self := s; calls := [] |}) in *.
  destruct (stop_hotspot_first w m0) as (evs & Hfirst).
  destruct (stop_hotspot_spec w m0) as [(evs0 & Hev0 & Hc) Hs].
  destruct (stop_hotspot w m0) as [[b | e] m1]; cbn [fst snd] in *.
  - exists evs. split; [exact Hfirst |]. unfold ret at 1 in Hx.
    assert (Hc1 : forallb hotspot_event (calls m1) = true) by (rewrite Hev0; exact Hc).
    destruct (connect_steps_first target pass w m1) as (rest & Hrest).
    pose proof (connect_steps_spec target pass w m1
                  (runs_of_outside hotspot_event RestartWpaSupplicant _ Hc1 eq_refl)
                  (runs_of_outside hotspot_event WpaReconfigure _ Hc1 eq_refl)
                  (runs_of_outside hotspot_event Iwgetid _ Hc1 eq_refl)
                  (sleeps_of_outside hotspot_event 1 _ Hc1 eq_refl)
                  (not_in_outside hotspot_event (Run RestartWpaSupplicant) _ Hc1 eq_refl))
      as Hsteps.
    cbv zeta in Hsteps. rewrite Hs in Hsteps.
    destruct (connect_steps target pass w m1) as [r m5]. cbn [fst snd] in *.
    assert (Hoff : hotspot_active (self m5) = false).
    { destruct Hsteps as [(Hself & _) | (_ & _ & Hm)]; [rewrite Hself; reflexivity |].
      destruct (first_match w target 0 30); destruct Hm as (_ & St & _);
        rewrite St; reflexivity. }
    destruct r; subst x; cbn;
      (split; [exists rest; rewrite Hrest, Hfirst; reflexivity | exact Hoff]).
  - exists evs. split; [exact Hfirst |]. subst x. cbn. rewrite Hfirst. reflexivity.
Qed.

Lemma connect_to_network_stops_hotspot_first_witness :
  exists evs,
    calls_made (call stop_hotspot Examples.helper_and_hostapd_fail Examples.in_hotspot)
    = Run HotspotStop :: evs
    /\ match returned (call stop_hotspot Examples.helper_and_hostapd_fail
                            Examples.in_hotspot) with
       | Ok _ =>
           (exists rest,
               calls_made (call (connect_to_network "Home" "homepass")
                                Examples.helper_and_hostapd_fail Examples.in_hotspot)
               = (Run HotspotStop :: evs ++ ConfRead :: rest)%list)
           /\ hotspot_active
                (state_after (call (connect_to_network "Home" "homepass")
                                   Examples.helper_and_hostapd_fail Examples.in_hotspot))
              = false
       | Raise _ =>
           call (connect_to_network "Home" "homepass")
                Examples.helper_and_hostapd_fail Examples.in_hotspot
           = (Ok false,
              state_after (call stop_hotspot Examples.helper_and_hostapd_fail
                                Examples.in_hotspot),
              Run HotspotStop :: evs)
       end.
Proof.
  apply (connect_to_network_stops_hotspot_first
           Examples.helper_and_hostapd_fail Examples.in_hotspot "Home" "homepass").
  reflexivity.
Defined.

(** ** The rewrite of a configuration in the usual layout *)

Module StripFacts.
Import Py.

Lemma rstrip_prefix (f : ascii -> bool) (s : string) :
  startswith (rstrip_by f s) s = true.
Proof.
  induction s as [| c s IH]; [reflexivity |].
  cbn [rstrip_by]. destruct (rstrip_by f s) as [| d t] eqn:E.
  - destruct (f c); cbn [startswith]; [reflexivity |].
    rewrite Ascii.eqb_refl. reflexivity.
  - cbn [startswith]. rewrite Ascii.eqb_refl. exact IH.
Qed.

Lemma lstrip_contains (f : ascii -> bool) (q s : string) :
  contains q (lstrip_by f s) = true -> contains q s = true.
Proof.
  induction s as [| c s IH]; [auto |].
  cbn [lstrip_by]. destruct (f c); [| auto].
  intros H. apply ContainsFacts.contains_tail. exact (IH H).
Qed.

(** What the stripped line holds, the line holds. *)
Lemma strip_contains (q s : string) :
  contains q (strip s) = true -> contains q s = true.
Proof.
  unfold strip, strip_by. intros H. apply (lstrip_contains is_space).
  exact (ContainsFacts.contains_startswith _ _ _ H (rstrip_prefix _ _)).
Qed.

End StripFacts.

Module LineFacts.
Import Py.

Lemma append_nil_r (s : string) : s ++ "" = s.
Proof. induction s as [| c s IH]; [reflexivity | cbn; rewrite IH; reflexivity]. Qed.

Lemma append_assoc (a b c : string) : (a ++ b) ++ c = a ++ b ++ c.
Proof. induction a as [| x a IH]; [reflexivity | cbn; rewrite IH; reflexivity]. Qed.

Lemma rev_string_rev (l : string) :
  forall a b, rev_string a (rev_string b l) = rev_string (l ++ a) b.
Proof.
  induction l as [| c l IH]; intros a b; [reflexivity |].
  cbn [rev_string append]. rewrite IH. reflexivity.
Qed.

Lemma join_cons (x : string) (l : list string) : join (x :: l) = x ++ join l.
Proof.
  unfold join. destruct l as [| y l]; cbn [String.concat].
  - rewrite append_nil_r. reflexivity.
  - reflexivity.
Qed.

Lemma join_app (a b : list string) : join (a ++ b) = join a ++ join b.
Proof.
  induction a as [| x a IH]; [reflexivity |].
  cbn [app]. rewrite !join_cons, IH, append_assoc. reflexivity.
Qed.

(** A proper line at the head of a text is its first line. *)
Lemma lines_of_proper (l : string) :
  forall cur rest,
    proper_line l = true ->
    lines_of cur (universal_newlines (l ++ rest))
    = rev_string "" (rev_string cur l) :: lines_of "" (universal_newlines rest).
Proof.
  induction l as [| c l IH]; intros cur rest H; [discriminate |].
  cbn [proper_line] in H. cbn [append universal_newlines].
  destruct (Ascii.eqb_spec c (ascii_of_nat 10)) as [-> | Hnl].
  - destruct l; [| discriminate]. cbn [Ascii.eqb Bool.eqb andb append lines_of rev_string].
    change (Ascii.eqb (ascii_of_nat 10) (ascii_of_nat 13)) with false. cbv iota.
    cbn [lines_of]. change (Ascii.eqb (ascii_of_nat 10) (ascii_of_nat 10)) with true.
    reflexivity.
  - apply andb_true_iff in H as [Hc Hl]. apply negb_true_iff in Hc.
    unfold line_break in Hc. apply orb_false_iff in Hc as [_ Hcr].
    rewrite Hcr. cbn [lines_of].
    destruct (Ascii.eqb_spec c (ascii_of_nat 10)) as [? | _]; [contradiction |].
    rewrite (IH _ _ Hl). reflexivity.
Qed.

Lemma readlines_proper (l rest : string) :
  proper_line l = true -> readlines (l ++ rest) = l :: readlines rest.
Proof.
  intros H. unfold readlines. rewrite (lines_of_proper l "" rest H).
  rewrite rev_string_rev. cbn [rev_string]. rewrite append_nil_r. reflexivity.
Qed.

(** Proper lines are read back as they were written. *)
Lemma readlines_join (lines : list string) (rest : string) :
  forallb proper_line lines = true ->
  readlines (join lines ++ rest) = (lines ++ readlines rest)%list.
Proof.
  induction lines as [| l lines IH]; intros H; [reflexivity |].
  cbn [forallb] in H. apply andb_true_iff in H as [Hl H].
  rewrite join_cons, append_assoc, (readlines_proper _ _ Hl), (IH H). reflexivity.
Qed.

Lemma proper_app (a b : string) :
  plain a = true -> proper_line b = true -> proper_line (a ++ b) = true.
Proof.
  induction a as [| c a IH]; intros Ha Hb; [exact Hb |].
  cbn [plain] in Ha. apply andb_true_iff in Ha as [Hc Ha].
  cbn [append proper_line]. rewrite Hc, (IH Ha Hb).
  apply negb_true_iff in Hc. unfold line_break in Hc.
  apply orb_false_iff in Hc as [-> _]. reflexivity.
Qed.

Lemma rstrip_app (f : ascii -> bool) (a b : string) :
  rstrip_by f b <> "" -> rstrip_by f (a ++ b) = a ++ rstrip_by f b.
Proof.
  intros Hb. induction a as [| c a IH]; [reflexivity |].
  cbn [append rstrip_by]. rewrite IH.
  destruct (a ++ rstrip_by f b) as [| d t] eqn:E; [| reflexivity].
  destruct a; [cbn in E; contradiction | discriminate].
Qed.

Lemma rstrip_snoc (f : ascii -> bool) (c : ascii) (x : string) :
  f c = true -> rstrip_by f (x ++ String c "") = rstrip_by f x.
Proof.
  intros Hc. induction x as [| d x IH]; cbn [append rstrip_by].
  - rewrite Hc. reflexivity.
  - rewrite IH. reflexivity.
Qed.

Lemma lstrip_snoc (f : ascii -> bool) (c : ascii) (t : string) :
  f c = true ->
  lstrip_by f (t ++ String c "")
  = match lstrip_by f t with
    | EmptyString => EmptyString
    | r => r ++ String c ""
    end.
Proof.
  intros Hc. induction t as [| d t IH]; cbn [append lstrip_by].
  - rewrite Hc. reflexivity.
  - destruct (f d); [exact IH | reflexivity].
Qed.

(** Stripping takes off a wrapping pair. *)
Lemma strip_wrapped (f : ascii -> bool) (c : ascii) (t : string) :
  f c = true -> strip_by f (String c (t ++ String c "")) = strip_by f t.
Proof.
  intros Hc. unfold strip_by. cbn [lstrip_by]. rewrite Hc, (lstrip_snoc f c t Hc).
  destruct (lstrip_by f t) as [| d r]; [reflexivity |].
  exact (rstrip_snoc f c _ Hc).
Qed.

(** A piece without the separator is passed over whole. *)
Lemma split_aux_equals (t : string) :
  forall cur rest,
    mem_char "=" t = false ->
    split_aux "=" O cur (t ++ rest) = split_aux "=" O (rev_string cur t) rest.
Proof.
  induction t as [| c t IH]; intros cur rest H; [reflexivity |].
  cbn [mem_char] in H. apply orb_false_iff in H as [Hc Ht].
  cbn [append split_aux startswith rev_string].
  rewrite Hc. cbn [andb]. exact (IH _ _ Ht).
Qed.

End LineFacts.

Lemma names_has_equals (line : string) :
  names line = true -> exists v, Py.index (Py.split "=" line) 1 = Ok v.
Proof.
  intros H. apply PyFacts.index_split_contains; [discriminate |].
  apply StripFacts.strip_contains.
  exact (ContainsFacts.contains_startswith "=" "ssid=" _ eq_refl H).
Qed.

Lemma names_not_opens (line : string) : names line = true -> opens line = false.
Proof.
  unfold names, opens. destruct (Py.strip line) as [| c t]; [discriminate |].
  cbn [Py.startswith]. destruct (Ascii.eqb_spec "s" c) as [<- | _]; [reflexivity |].
  discriminate.
Qed.

Lemma names_not_closes (line : string) : names line = true -> closes line = false.
Proof.
  unfold names, closes. destruct (Py.strip line) as [| c t]; [discriminate |].
  cbn [Py.startswith]. destruct (Ascii.eqb_spec "s" c) as [<- | _]; [reflexivity |].
  discriminate.
Qed.

Lemma closes_not_opens (line : string) : closes line = true -> opens line = false.
Proof.
  unfold closes, opens. intros H. apply String.eqb_eq in H. rewrite H. reflexivity.
Qed.

Lemma mem_char_app (c : ascii) (x y : string) :
  Py.mem_char c (x ++ y) = Py.mem_char c x || Py.mem_char c y.
Proof.
  induction x as [| d x IH]; [reflexivity |].
  cbn [append Py.mem_char]. rewrite IH, orb_assoc. reflexivity.
Qed.

Lemma rev_string_twice (s : string) : Py.rev_string "" (Py.rev_string "" s) = s.
Proof. rewrite LineFacts.rev_string_rev. cbn. apply LineFacts.append_nil_r. Qed.

(** One ['='] splits in two. *)
Lemma split_equals (a b : string) :
  Py.mem_char "=" a = false -> Py.mem_char "=" b = false ->
  Py.split "=" (a ++ String "=" b) = [a; b].
Proof.
  intros Ha Hb. unfold Py.split.
  rewrite (LineFacts.split_aux_equals a _ _ Ha).
  cbn [Py.split_aux Py.startswith Ascii.eqb Bool.eqb andb String.length Nat.pred].
  rewrite rev_string_twice.
  rewrite <- (LineFacts.append_nil_r b) at 1.
  rewrite (LineFacts.split_aux_equals b _ _ Hb).
  cbn [Py.split_aux]. rewrite rev_string_twice. reflexivity.
Qed.

Lemma lstrip_indentation (indent s : string) :
  indentation indent = true ->
  Py.lstrip_by Py.is_space (indent ++ s) = Py.lstrip_by Py.is_space s.
Proof.
  induction indent as [| c indent IH]; intros H; [reflexivity |].
  cbn [indentation] in H. apply andb_true_iff in H as [Hc H].
  cbn [append Py.lstrip_by]. rewrite Hc. exact (IH H).
Qed.

Lemma indentation_no_equals (indent : string) :
  indentation indent = true -> Py.mem_char "=" indent = false.
Proof.
  induction indent as [| c indent IH]; intros H; [reflexivity |].
  cbn [indentation] in H. apply andb_true_iff in H as [Hc H].
  cbn [Py.mem_char]. rewrite (IH H), orb_false_r.
  destruct (Ascii.eqb_spec "=" c) as [<- | _]; [discriminate | reflexivity].
Qed.

Lemma strip_name_line (indent name : string) :
  indentation indent = true ->
  Py.strip (name_line indent name) = "ssid=" ++ Py.dquote ++ name ++ Py.dquote.
Proof.
  intros Hi. unfold Py.strip, Py.strip_by, name_line.
  rewrite (lstrip_indentation _ _ Hi).
  change (Py.lstrip_by Py.is_space ("ssid=" ++ Py.dquote ++ name ++ Py.dquote ++ Py.nl))
    with (("ssid=" ++ Py.dquote) ++ name ++ (Py.dquote ++ Py.nl)).
  rewrite <- LineFacts.append_assoc.
  rewrite LineFacts.rstrip_app by (vm_compute; discriminate).
  change (Py.rstrip_by Py.is_space (Py.dquote ++ Py.nl)) with Py.dquote.
  rewrite LineFacts.append_assoc. reflexivity.
Qed.

Lemma names_name_line (indent name : string) :
  indentation indent = true -> names (name_line indent name) = true.
Proof. intros Hi. unfold names. rewrite (strip_name_line _ _ Hi). reflexivity. Qed.

(** Off the line of a plain name, the loop reads the name. *)
Lemma block_ssid_name_line (indent name : string) :
  indentation indent = true -> plain_name name = true ->
  block_ssid (name_line indent name) = name.
Proof.
  unfold plain_name. intros Hi H.
  apply andb_true_iff in H as [H Hq]. apply andb_true_iff in H as [_ He].
  apply negb_true_iff in He. apply String.eqb_eq in Hq.
  assert (Hsplit : Py.split "=" (name_line indent name)
                   = [indent ++ "ssid"; Py.dquote ++ name ++ Py.dquote ++ Py.nl]).
  { change (name_line indent name)
      with (indent ++ "ssid" ++ String "=" (Py.dquote ++ name ++ Py.dquote ++ Py.nl)).
    rewrite <- LineFacts.append_assoc.
    apply split_equals.
    - rewrite mem_char_app, (indentation_no_equals _ Hi). reflexivity.
    - rewrite !mem_char_app, He. reflexivity. }
  unfold block_ssid. rewrite Hsplit.
  assert (Hstrip : Py.strip (Py.dquote ++ name ++ Py.dquote ++ Py.nl)
                   = String (ascii_of_nat 34) (name ++ String (ascii_of_nat 34) "")).
  { unfold Py.strip, Py.strip_by.
    change (Py.lstrip_by Py.is_space (Py.dquote ++ name ++ Py.dquote ++ Py.nl))
      with (Py.dquote ++ name ++ (Py.dquote ++ Py.nl)).
    rewrite <- LineFacts.append_assoc.
    rewrite LineFacts.rstrip_app by (vm_compute; discriminate).
    reflexivity. }
  rewrite Hstrip. unfold Py.strip_chars.
  rewrite LineFacts.strip_wrapped by reflexivity.
  exact Hq.
Qed.

Lemma filter_lines_app (target : string) (l1 l2 : list string) :
  forall st,
    filter_lines target st (l1 ++ l2)
    = rbind (filter_lines target st l1) (fun st' => filter_lines target st' l2).
Proof.
  induction l1 as [| l l1 IH]; intros st; [reflexivity |].
  cbn [app filter_lines]. destruct (filter_line target st l); cbn [rbind]; [apply IH | reflexivity].
Qed.

(** The settings of a block pile up in [current_block]. *)
Lemma filter_lines_body (target : string) (body : list string) :
  forall st acc,
    in_network_block st = true -> current_block st = Some acc ->
    forallb body_line_ok body = true ->
    filter_lines target st body
    = Ok {| new_lines := new_lines st; in_network_block := true;
            network_ssid := network_ssid st;
            current_block := Some (acc ++ body)%list |}.
Proof.
  induction body as [| b body IH]; intros st acc Hin Hcb Hok.
  - cbn [filter_lines]. rewrite app_nil_r. destruct st; cbn in *. subst. reflexivity.
  - cbn [forallb] in Hok. apply andb_true_iff in Hok as [Hb Hok].
    unfold body_line_ok in Hb.
    apply andb_true_iff in Hb as [Hb Hn]. apply andb_true_iff in Hb as [Ho Hc].
    apply negb_true_iff in Ho, Hc, Hn. unfold opens, closes, names in Ho, Hc, Hn.
    cbn [filter_lines]. unfold filter_line at 1. cbv zeta.
    rewrite Ho, Hc, Hin, Hn. cbn [andb]. unfold read_current_block. rewrite Hcb.
    cbn [rbind].
    rewrite IH with (acc := (acc ++ [b])%list);
      [| reflexivity | reflexivity | exact Hok].
    cbn. rewrite <- app_assoc. reflexivity.
Qed.

(** One item: a line outside is kept, a block is kept whole when its name
    differs from the target and dropped whole when it is the target. *)
Lemma filter_lines_item (target : string) (i : item) (st : filter_state) :
  in_network_block st = false -> item_ok i = true ->
  exists st',
    filter_lines target st (item_lines i) = Ok st'
    /\ in_network_block st' = false
    /\ new_lines st'
       = (new_lines st ++ (if kept target i then item_lines i else []))%list.
Proof.
  intros Hin Hok. destruct i as [line | indent name body close].
  - cbn [item_ok] in Hok. apply negb_true_iff in Hok. unfold opens in Hok.
    cbn [item_lines filter_lines kept]. unfold filter_line. cbv zeta.
    rewrite Hok, Hin, andb_false_r. cbn [rbind].
    eexists. split; [reflexivity |]. split; reflexivity.
  - cbn [item_ok] in Hok.
    apply andb_true_iff in Hok as [Hok Hclose]. apply andb_true_iff in Hok as [Hok Hbody].
    apply andb_true_iff in Hok as [Hind Hplain].
    pose proof (names_name_line indent name Hind) as Hname.
    pose proof (block_ssid_name_line indent name Hind Hplain) as Hread.
    pose proof (names_not_opens _ Hname) as Hno.
    pose proof (names_not_closes _ Hname) as Hnc.
    pose proof (closes_not_opens _ Hclose) as Hco.
    destruct (names_has_equals _ Hname) as (v & Hv).
    unfold opens, closes, names in *.
    cbn [item_lines filter_lines]. unfold filter_line at 1. cbv zeta.
    change (Py.startswith "network={" (Py.strip header)) with true. cbv iota.
    cbn [rbind]. unfold filter_line at 1. cbv zeta. cbn [in_network_block].
    rewrite Hno, Hnc, Hname. cbn [andb]. rewrite Hv. cbn [rbind].
    rewrite filter_lines_app.
    rewrite filter_lines_body with (acc := [header; name_line indent name]);
      [| reflexivity | reflexivity | exact Hbody].
    cbn [rbind filter_lines new_lines network_ssid]. unfold filter_line. cbv zeta.
    rewrite Hco, Hclose. cbn [andb in_network_block network_ssid current_block
                               read_current_block ssid_differs new_lines].
    assert (Hs : Py.strip_chars Py.dquote (Py.strip v) = name).
    { rewrite <- Hread. unfold block_ssid. unfold Py.index in Hv.
      destruct (Py.split "=" (name_line indent name)) as [| a [| b l]];
        try discriminate.
      cbn in Hv. injection Hv as ->. reflexivity. }
    rewrite Hs. cbn [kept].
    destruct (String.eqb name target); cbn [negb rbind].
    + eexists. split; [reflexivity |]. split; [reflexivity |].
      cbn [new_lines]. rewrite app_nil_r. reflexivity.
    + eexists. split; [reflexivity |]. split; [reflexivity |].
      cbn [new_lines]. reflexivity.
Qed.

Lemma filter_lines_items (target : string) (items : list item) :
  forall st,
    in_network_block st = false -> forallb item_ok items = true ->
    exists st',
      filter_lines target st (flat_map item_lines items) = Ok st'
      /\ in_network_block st' = false
      /\ new_lines st'
         = (new_lines st ++ flat_map item_lines (filter (kept target) items))%list.
Proof.
  induction items as [| i items IH]; intros st Hin Hok.
  - exists st. cbn. rewrite app_nil_r. auto.
  - cbn [forallb] in Hok. apply andb_true_iff in Hok as [Hi Hok].
    destruct (filter_lines_item target i st Hin Hi) as (st1 & E1 & Hin1 & N1).
    destruct (IH st1 Hin1 Hok) as (st2 & E2 & Hin2 & N2).
    exists st2. cbn [flat_map]. rewrite filter_lines_app, E1. cbn [rbind].
    split; [exact E2 |]. split; [exact Hin2 |].
    rewrite N2, N1. cbn [filter].
    destruct (kept target i); cbn [flat_map]; rewrite <- ?app_assoc, ?app_nil_r;
      reflexivity.
Qed.

Lemma rewrite_config_items (target pass : string) (items : list item) :
  forallb item_ok items = true ->
  rewrite_config target pass (flat_map item_lines items)
  = Ok (flat_map item_lines (filter (kept target) items) ++ new_block target pass)%list.
Proof.
  intros Hok. unfold rewrite_config.
  destruct (filter_lines_items target items
              {| new_lines := []; in_network_block := false;
                 network_ssid := None; current_block := None |} eq_refl Hok)
    as (st & E & _ & N).
  rewrite E. cbn [rbind]. rewrite N. reflexivity.
Qed.

(** The call, on a file in the usual layout. *)
Lemma update_wpa_supplicant_items
    (w : world) (s : wifi) (target pass : string)
    (existing : option string) (items : list item) (rc : Z) (out err : string) :
  w_conf w = Ok existing ->
  match existing with Some text => readlines text | None => [] end
  = flat_map item_lines items ->
  forallb item_ok items = true ->
  w_write w = None ->
  w_proc w ChmodConf 0 = Exited rc out err ->
  call (_update_wpa_supplicant target pass) w s
  = (Ok true, s,
     [ConfRead;
      ConfWrite (Py.join (flat_map item_lines (filter (kept target) items)
                          ++ new_block target pass)%list);
      Run ChmodConf]).
Proof.
  intros Hconf Hlines Hok Hwrite Hchmod.
  unfold call, _update_wpa_supplicant. run_method.
  rewrite Hconf. cbn. rewrite Hlines, (rewrite_config_items target pass items Hok).
  cbn. rewrite Hwrite. cbn. rewrite Hchmod. reflexivity.
Qed.



(** ** Writing the same network again *)

(** The new block, read back. *)
Lemma new_block_join (target pass : string) :
  Py.join (new_block target pass)
  = Py.join (Py.nl :: item_lines (new_block_item target pass)).
Proof. destruct pass; reflexivity. Qed.

Lemma proper_name_line (target : string) :
  plain target = true -> proper_line (name_line "    " target) = true.
Proof.
  intros H.
  change (name_line "    " target)
    with (("    ssid=" ++ Py.dquote) ++ target ++ Py.dquote ++ Py.nl).
  apply LineFacts.proper_app; [reflexivity |].
  apply LineFacts.proper_app; [exact H | reflexivity].
Qed.

Lemma proper_key_line (pass : string) :
  plain pass = true -> proper_line (key_line pass) = true.
Proof.
  intros H. destruct pass as [| c pass]; [reflexivity |].
  change (key_line (String c pass))
    with (("    psk=" ++ Py.dquote) ++ String c pass ++ Py.dquote ++ Py.nl).
  apply LineFacts.proper_app; [reflexivity |].
  apply LineFacts.proper_app; [exact H | reflexivity].
Qed.

Lemma body_line_ok_key_line (pass : string) : body_line_ok (key_line pass) = true.
Proof.
  destruct pass as [| c pass]; [reflexivity |].
  assert (Hs : Py.strip (key_line (String c pass))
               = "psk=" ++ Py.dquote ++ String c pass ++ Py.dquote).
  { unfold Py.strip, Py.strip_by.
    change (Py.lstrip_by Py.is_space (key_line (String c pass)))
      with (("psk=" ++ Py.dquote) ++ String c pass ++ (Py.dquote ++ Py.nl)).
    rewrite <- LineFacts.append_assoc.
    rewrite LineFacts.rstrip_app by (vm_compute; discriminate).
    change (Py.rstrip_by Py.is_space (Py.dquote ++ Py.nl)) with Py.dquote.
    rewrite LineFacts.append_assoc. reflexivity. }
  unfold body_line_ok, opens, closes, names. rewrite Hs. reflexivity.
Qed.

Lemma item_ok_new_block (target pass : string) :
  plain_name target = true -> item_ok (new_block_item target pass) = true.
Proof.
  intros H. unfold new_block_item. cbn [item_ok forallb indentation].
  rewrite H, body_line_ok_key_line. reflexivity.
Qed.

Lemma filter_all {A : Type} (p : A -> bool) (l : list A) :
  forallb p l = true -> filter p l = l.
Proof.
  induction l as [| x l IH]; [reflexivity |].
  cbn [forallb filter]. intros H. apply andb_true_iff in H as [-> H].
  rewrite (IH H). reflexivity.
Qed.

Lemma forallb_filter {A : Type} (p q : A -> bool) (l : list A) :
  forallb p l = true -> forallb p (filter q l) = true.
Proof.
  induction l as [| x l IH]; [reflexivity |].
  cbn [forallb filter]. intros H. apply andb_true_iff in H as [Hx H].
  destruct (q x); [cbn [forallb]; rewrite Hx |]; exact (IH H).
Qed.

Lemma forallb_flat_map {A B : Type} (p : B -> bool) (f : A -> list B) (l : list A) :
  forallb p (flat_map f l) = forallb (fun x => forallb p (f x)) l.
Proof.
  induction l as [| x l IH]; [reflexivity |].
  cbn [flat_map forallb]. rewrite forallb_app, IH. reflexivity.
Qed.

(** The file written for a network: its lines as the next call reads
    them, and what the next call for the same network makes of them. *)
Lemma rewrite_config_twice (items : list item) (target pass : string) :
  forallb item_ok items = true ->
  forallb (kept target) items = true ->
  forallb proper_line (flat_map item_lines items) = true ->
  plain_name target = true ->
  plain pass = true ->
  reread (flat_map item_lines items ++ new_block target pass)
  = flat_map item_lines (items ++ [Outside Py.nl; new_block_item target pass])
  /\ rewrite_config target pass
       (reread (flat_map item_lines items ++ new_block target pass))
     = Ok (flat_map item_lines (items ++ [Outside Py.nl]) ++ new_block target pass)%list.
Proof.
  intros Hok Hkept Hproper Hname Hpass.
  assert (Hplain : plain target = true).
  { unfold plain_name in Hname. apply andb_true_iff in Hname as [Hn _].
    apply andb_true_iff in Hn as [Hn _]. exact Hn. }
  assert (Hread : reread (flat_map item_lines items ++ new_block target pass)
                  = flat_map item_lines
                      (items ++ [Outside Py.nl; new_block_item target pass])).
  { unfold reread. rewrite LineFacts.join_app, new_block_join.
    rewrite (LineFacts.readlines_join _ _ Hproper).
    rewrite <- (LineFacts.append_nil_r (Py.join _)).
    rewrite LineFacts.readlines_join.
    - rewrite flat_map_app. cbn [flat_map item_lines app]. reflexivity.
    - cbn [item_lines new_block_item forallb app].
      rewrite (proper_name_line _ Hplain), (proper_key_line _ Hpass). reflexivity. }
  split; [exact Hread |].
  rewrite Hread, rewrite_config_items.
  - rewrite !filter_app, (filter_all _ _ Hkept). cbn [filter kept new_block_item].
    rewrite String.eqb_refl. reflexivity.
  - rewrite forallb_app, Hok. cbn [forallb andb].
    rewrite (item_ok_new_block _ _ Hname). reflexivity.
Qed.

(** X15: writing the same network twice.  The file is in the usual layout
    (blocks that open with [network={], give a plain name next and close
    with [}]), each of its lines ends with its only line break, the name
    of the network holds no line break, no ['='] and no double quote at
    either end, and the password no line break.  The first call writes
    the lines outside blocks and the blocks of other names, then the new
    block; that file reads back as the same items, a blank line and the
    block of the network.  A second call that finds that file writes the
    same items, the blank line and the new block: still one block for the
    network, and one more blank line. *)
Theorem update_wpa_supplicant_again
    (w w' : world) (s s' : wifi) (target pass text : string) (items : list item)
    (rc rc' : Z) (out err out' err' : string) :
  w_conf w = Ok (Some text) ->
  readlines text = flat_map item_lines items ->
  forallb item_ok items = true ->
  forallb proper_line (flat_map item_lines items) = true ->
  plain_name target = true ->
  plain pass = true ->
  w_write w = None ->
  w_proc w ChmodConf 0 = Exited rc out err ->
  let others := filter (kept target) items in
  let written := Py.join (flat_map item_lines others ++ new_block target pass)%list in
  call (_update_wpa_supplicant target pass) w s
  = (Ok true, s, [ConfRead; ConfWrite written; Run ChmodConf])
  /\ readlines written
     = flat_map item_lines (others ++ [Outside Py.nl; new_block_item target pass])
  /\ (w_conf w' = Ok (Some written) ->
      w_write w' = None ->
      w_proc w' ChmodConf 0 = Exited rc' out' err' ->
      call (_update_wpa_supplicant target pass) w' s'
      = (Ok true, s',
         [ConfRead;
          ConfWrite (Py.join (flat_map item_lines (others ++ [Outside Py.nl])
                              ++ new_block target pass)%list);
          Run ChmodConf])).
Proof.
  intros Hconf Hlines Hok Hproper Hname Hpass Hwrite Hchmod others written.
  assert (Hok' : forallb item_ok others = true) by exact (forallb_filter _ _ _ Hok).
  assert (Hkept : forallb (kept target) others = true).
  { apply forallb_forall. intros i Hi. apply filter_In in Hi as [_ Hi]. exact Hi. }
  assert (Hproper' : forallb proper_line (flat_map item_lines others) = true).
  { rewrite forallb_flat_map in *. exact (forallb_filter _ _ _ Hproper). }
  destruct (rewrite_config_twice others target pass Hok' Hkept Hproper' Hname Hpass)
    as [Hread Hagain].
  split; [| split].
  - exact (update_wpa_supplicant_items w s target pass (Some text) items rc out err
             Hconf Hlines Hok Hwrite Hchmod).
  - exact Hread.
  - intros Hconf' Hwrite' Hchmod'.
    assert (Hok2 : forallb item_ok
                     (others ++ [Outside Py.nl; new_block_item target pass]) = true).
    { rewrite forallb_app, Hok'. cbn [forallb andb].
      rewrite (item_ok_new_block _ _ Hname). reflexivity. }
    rewrite (update_wpa_supplicant_items w' s' target pass (Some written) _ rc' out' err'
               Hconf' Hread Hok2 Hwrite' Hchmod').
    rewrite filter_app, (filter_all _ _ Hkept). cbn [filter kept new_block_item].
    rewrite String.eqb_refl. reflexivity.
Qed.

Lemma update_wpa_supplicant_again_witness :
  call (_update_wpa_supplicant "Cafe" "cafepass")
       (Examples.configured (Py.join (flat_map item_lines Examples.conf_items)))
       (init Examples.cfg)
  = (Ok true, init Examples.cfg,
     [ConfRead; ConfWrite Examples.conf_items_written; Run ChmodConf])
  /\ readlines Examples.conf_items_written
     = flat_map item_lines
         (filter (kept "Cafe") Examples.conf_items
          ++ [Outside Py.nl; new_block_item "Cafe" "cafepass"])
  /\ call (_update_wpa_supplicant "Cafe" "cafepass")
          (Examples.configured Examples.conf_items_written) (init Examples.cfg)
     = (Ok true, init Examples.cfg,
        [ConfRead;
         ConfWrite (Py.join (flat_map item_lines
                               (filter (kept "Cafe") Examples.conf_items
                                ++ [Outside Py.nl])
                             ++ new_block "Cafe" "cafepass")%list);
         Run ChmodConf]).
Proof.
  destruct (update_wpa_supplicant_again
              (Examples.configured (Py.join (flat_map item_lines Examples.conf_items)))
              (Examples.configured Examples.conf_items_written)
              (init Examples.cfg) (init Examples.cfg) "Cafe" "cafepass"
              (Py.join (flat_map item_lines Examples.conf_items))
              Examples.conf_items 0 0 "" "" "" "")
    as (H1 & H2 & H3);
    [ reflexivity | vm_compute; reflexivity | vm_compute; reflexivity
    | vm_compute; reflexivity | vm_compute; reflexivity | vm_compute; reflexivity
    | reflexivity | reflexivity | ].
  split; [exact H1 |]. split; [exact H2 |].
  apply H3; reflexivity.
Defined.

(** ** What a call costs and leaves alone *)

(** X16: [stop_hotspot] changes nothing but the hotspot flag, whether it
    returns or raises: the connection flag, the recorded network, the
    address and the configuration are as before. *)
Theorem stop_hotspot_frame (w : world) (s : wifi) :
  connected (state_after (call stop_hotspot w s)) = connected s
  /\ current_ssid (state_after (call stop_hotspot w s)) = current_ssid s
  /\ ip_address (state_after (call stop_hotspot w s)) = ip_address s
  /\ config (state_after (call stop_hotspot w s)) = config s.
Proof.
  unfold state_after, call.
  pose proof (stop_hotspot_spec w {| self := s; calls := [] |}) as [_ H].
  destruct (stop_hotspot w {| self := s; calls := [] |}) as [[b | e] m'];
    cbn [fst snd self] in *.
  - rewrite H. cbn. auto.
  - destruct H as [_ [H | H]]; rewrite H; cbn; auto.
Qed.

Lemma connect_steps_probes (target pass : string) (w : world) (m : machine) :
  (runs_of Iwgetid (calls (snd (connect_steps target pass w m)))
   <= runs_of Iwgetid (calls m) + 30)%nat.
Proof.
  unfold connect_steps. rewrite bind_eq.
  destruct (update_wpa_supplicant_spec target pass w m) as (b & evs & E & Hc).
  rewrite E.
  pose proof (runs_of_outside conf_event Iwgetid _ Hc eq_refl) as R2.
  destruct b; cbn [negb]; [| cbn [ret snd calls]; rewrite runs_of_app, R2; lia].
  rewrite bind_eq, subprocess_run_eq. cbn [self calls].
  destruct (w_proc w RestartWpaSupplicant _) as [? ? ? | e]; cbn [andb];
    [| cbn [snd calls]; rewrite !runs_of_app, R2; cbn; lia].
  rewrite bind_eq. unfold sleep, emit. cbn [self calls].
  rewrite bind_eq, subprocess_run_eq. cbn [self calls].
  destruct (w_proc w WpaReconfigure _) as [? ? ? | e]; cbn [andb];
    [| cbn [snd calls]; rewrite !runs_of_app, R2; cbn; lia].
  match goal with
  | |- context [wait_for_connection 30 target pass w ?m4] =>
      assert (R4 : runs_of Iwgetid (calls m4) = runs_of Iwgetid (calls m))
        by (cbn [calls]; rewrite !runs_of_app, R2; cbn; lia);
      destruct (wait_for_connection_spec target pass w 30 m4) as [_ Hw];
      rewrite R4 in Hw
  end.
  destruct (first_match w target (runs_of Iwgetid (calls m)) 30) as [k |] eqn:Hf.
  - destruct Hw as (_ & _ & -> & _).
    destruct (first_match_some _ _ _ _ _ Hf) as (Hk & _). lia.
  - destruct Hw as (_ & _ & -> & _). lia.
Qed.

(** X17: [connect_to_network] never raises, and whatever happens it
    probes the link 30 times at most. *)
Theorem connect_to_network_bounded (w : world) (s : wifi) (target pass : string) :
  (exists b, returned (call (connect_to_network target pass) w s) = Ok b)
  /\ (runs_of Iwgetid (calls_made (call (connect_to_network target pass) w s)) <= 30)%nat.
Proof.
  split.
  { destruct (connect_to_network_run w s target pass) as [(R & _) | (_ & _ & Hm)];
      [eauto |].
    destruct (first_match w target 0 30); destruct Hm as (R & _); eauto. }
  remember (call (connect_to_network target pass) w s) as x eqn:Hx.
  unfold call in Hx.
  change (connect_to_network target pass)
    with (try (s0 <- get ;;
               (if hotspot_active s0 then (_ <- stop_hotspot ;; ret tt) else ret tt) ;;
               connect_steps target pass)%py
              any_exception (ret false)) in Hx.
  rewrite try_eq, bind_eq in Hx. unfold get at 1 in Hx. cbn [self] in Hx.
  rewrite bind_eq in Hx.
  set (m0 := {| self := s; calls := [] |}) in Hx.
  assert (Hstage :
    exists r m1, (if hotspot_active s then (_ <- stop_hotspot ;; ret tt)%py else ret tt) w m0
                 = (r, m1)
                 /\ runs_of Iwgetid (calls m1) = O).
  { destruct (hotspot_active s).
    - rewrite bind_eq.
      destruct (stop_hotspot_spec w m0) as [(evs & Hev & Hc) _].
      destruct (stop_hotspot w m0) as [[b | e] m1]; cbn [fst snd] in *;
        eexists _, _; (split; [reflexivity |]); rewrite Hev;
        exact (runs_of_outside hotspot_event Iwgetid _ Hc eq_refl).
    - eexists _, _. split; reflexivity. }
  destruct Hstage as (r & m1 & E1 & R1). rewrite E1 in Hx.
  destruct r as [[] | e].
  - pose proof (connect_steps_probes target pass w m1) as Hb. rewrite R1 in Hb.
    destruct (connect_steps target pass w m1) as [[b | e] m5]; subst x;
      cbn in *; exact Hb.
  - subst x. cbn. rewrite R1. lia.
Qed.
